(** * sip_call: the session/connectivity controller of main/main.cpp

    A shallow embedding of [main.cpp]: the link/IP event handler, the
    session lifecycle loop [sip_task], the event router installed on the
    SIP client, and the start-up sequence [app_main], together with the
    properties the specification states about them.

    The three execution contexts of the firmware (the start-up task, the
    event-loop task that runs [event_handler], and the worker that runs
    [sip_task]) are put together in one machine whose steps are the
    individual calls each context makes on its collaborators; a schedule
    picks which context moves next. *)

From Stdlib Require Import ZArith List String Ascii Bool Lia.
Import ListNotations.
Local Open Scope string_scope.
Local Open Scope list_scope.
Local Open Scope Z_scope.

(* ===================================================================== *)
(** ** Constants of the platform headers *)
(* ===================================================================== *)

(** The ESP-IDF and FreeRTOS headers are not part of the repository; the
    values below are the ones [esp_event_base.h], [esp_wifi_types.h],
    [esp_netif_types.h] and [esp_bit_defs.h] declare.  The handler only
    compares identifiers for equality. *)
Module EspIdf.

Inductive esp_event_base_t := WIFI_EVENT | IP_EVENT.

Definition base_eqb (a b : esp_event_base_t) : bool :=
  match a, b with
  | WIFI_EVENT, WIFI_EVENT | IP_EVENT, IP_EVENT => true
  | _, _ => false
  end.

Definition ESP_EVENT_ANY_ID : Z := -1.
Definition WIFI_EVENT_STA_START : Z := 2.
Definition WIFI_EVENT_STA_CONNECTED : Z := 4.
Definition WIFI_EVENT_STA_DISCONNECTED : Z := 5.
Definition IP_EVENT_STA_GOT_IP : Z := 0.
Definition BIT0 : Z := 1.

End EspIdf.
Import EspIdf.

(** main.cpp:72 *)
Definition CONNECTED_BIT : Z := BIT0.

(* ===================================================================== *)
(** ** Build configuration (sdkconfig) *)
(* ===================================================================== *)

(** The [CONFIG_*] macros come from the project's Kconfig, which is not in
    the source tree: they are parameters of the model.  A Kconfig [bool]
    is a macro defined as 1 when the option is set and left undefined
    otherwise; a Kconfig [string] is a string literal. *)
Record sdkconfig := {
  CONFIG_ACTUATOR_ACTIVE_HIGH : bool;
  CONFIG_ACTUATOR_PHONE_BUTTON : string;
  CONFIG_SIP_SERVER_IS_DHCP_SERVER : bool;
  CONFIG_SIP_SERVER_IP : string;
  CONFIG_LOCAL_IP : string;
  configTICK_RATE_HZ : Z
}.

(** FreeRTOS: [portTICK_PERIOD_MS = (TickType_t)1000 / configTICK_RATE_HZ],
    and [portTICK_RATE_MS] is its older name. *)
Definition portTICK_PERIOD_MS (cfg : sdkconfig) : Z := 1000 / configTICK_RATE_HZ cfg.
Definition portTICK_RATE_MS (cfg : sdkconfig) : Z := portTICK_PERIOD_MS cfg.

(** main.cpp:48 *)
Definition ACTUATOR_PHONE_BUTTON (cfg : sdkconfig) : string :=
  CONFIG_ACTUATOR_PHONE_BUTTON cfg.

(** [s[0]] on a C string literal: its first character, or the terminating
    NUL when the literal is empty. *)
Definition char_at0 (s : string) : ascii :=
  match s with
  | EmptyString => Ascii.zero
  | String c _ => c
  end.

(** main.cpp:50-54.  The first group is taken when the option is set.  When
    it is not, the preprocessor reaches an [#elif] that has no expression,
    which it rejects: there is no constant then ([None]). *)
Definition ACTUATOR_ACTIVE_HIGH (cfg : sdkconfig) : option bool :=
  if CONFIG_ACTUATOR_ACTIVE_HIGH cfg then Some false else None.

(** main.cpp:160: the polarity argument written in the type of
    [handlers_t::actuator_handler]. *)
Definition handlers_t_actuator_polarity : bool := false.

(** The polarity of the [ActuatorHandler] the system runs with.  app_main
    (line 252) instantiates the handler with [ACTUATOR_ACTIVE_HIGH] and
    binds it to the reference member of [handlers_t] (line 254); sip_task
    (line 169) binds that member to a reference of the first type again.
    References bind only between identical instantiations, so the program
    exists only when the two polarities agree. *)
Definition running_actuator_polarity (cfg : sdkconfig) : option bool :=
  match ACTUATOR_ACTIVE_HIGH cfg with
  | Some p => if Bool.eqb p handlers_t_actuator_polarity then Some p else None
  | None => None
  end.

(* ===================================================================== *)
(** ** Addresses and their text form *)
(* ===================================================================== *)

(** [esp_ip4_addr_t]: one 32-bit word holding the address in network byte
    order. *)
Record esp_ip4_addr_t := { addr : Z }.

Record esp_netif_ip_info_t := {
  ip : esp_ip4_addr_t;
  netmask : esp_ip4_addr_t;
  gw : esp_ip4_addr_t
}.

Record ip_event_got_ip_t := {
  ip_info : esp_netif_ip_info_t;
  ip_changed : bool
}.

(** [esp_ip4_addr_get_byte(ip, idx)]: byte [idx] of the word in memory
    (the target is little-endian). *)
Definition esp_ip4_addr_get_byte (a : esp_ip4_addr_t) (idx : Z) : Z :=
  Z.land (Z.shiftr (addr a) (8 * idx)) 255.

Definition digit (d : Z) : ascii := ascii_of_N (Z.to_N (48 + d)).

(** [%d] on a value between 0 and 999. *)
Definition print_d (n : Z) : string :=
  if n <? 10 then String (digit n) ""
  else if n <? 100 then String (digit (n / 10)) (String (digit (n mod 10)) "")
  else String (digit (n / 100))
         (String (digit ((n / 10) mod 10)) (String (digit (n mod 10)) "")).

(** [snprintf] into a buffer of [size] bytes keeps at most [size - 1]
    characters. *)
Fixpoint take_chars (n : nat) (s : string) : string :=
  match n, s with
  | O, _ => ""
  | _, EmptyString => ""
  | S n', String c s' => String c (take_chars n' s')
  end.

(** [IPSTR, IP2STR(ip)]: the format "%d.%d.%d.%d" on the four bytes in
    memory order. *)
Definition IPSTR_IP2STR (a : esp_ip4_addr_t) : string :=
  (print_d (esp_ip4_addr_get_byte a 0) ++ "." ++
   print_d (esp_ip4_addr_get_byte a 1) ++ "." ++
   print_d (esp_ip4_addr_get_byte a 2) ++ "." ++
   print_d (esp_ip4_addr_get_byte a 3))%string.

(** main.cpp:78-84 *)
Definition ip_to_string (a : esp_ip4_addr_t) : string :=
  let BUFFER_SIZE := 16%nat in
  take_chars (BUFFER_SIZE - 1) (IPSTR_IP2STR a).

(* ===================================================================== *)
(** ** Pointers *)
(* ===================================================================== *)

(** The pointers the handler is handed or forms, by what they point to.
    A member access through a pointer is defined only when the pointer
    points to an object of the struct that has the member. *)
Inductive pointer :=
| NULL
| ptr_client                              (* &client, app_main's SipClientT *)
| ptr_got_ip (e : ip_event_got_ip_t)      (* an ip_event_got_ip_t object *)
| ptr_ip4 (a : esp_ip4_addr_t).           (* an esp_ip4_addr_t object *)

(* ===================================================================== *)
(** ** The SIP client, as main.cpp uses it *)
(* ===================================================================== *)

(** Modelled from the spec: the two logical states of the SessionHandle
    (section 3); [sip_client/sip_client.h] is not in the source tree. *)
Inductive session_state := UNINITIALIZED | READY.

(** Modelled from the spec: the tags of the session event (section 3), as
    the switch of main.cpp:187-229 names them. *)
Inductive Event := CALL_START | CALL_CANCELLED | CALL_END | BUTTON_PRESS.

(** Modelled from the spec: [sip_client/sip_client.h] is not in the source
    tree.  The event delivered to the callback is the tagged event of
    section 3; [button_signal] is the character printed with [%c]. *)
Record SipClientEvent := {
  event : Event;
  cancel_reason : Z;
  button_signal : ascii;
  button_duration : Z
}.

(** Modelled from the spec: the session object of sections 3 and 6.  It is
    UNINITIALIZED or READY, holds the two addresses the setters write, and
    the callback registration. *)
Record SipClient := {
  session : session_state;
  server_ip : string;
  my_ip : string;
  has_event_handler : bool
}.

(** Modelled from the spec: [is_initialized() -> bool]. *)
Definition is_initialized (c : SipClient) : bool :=
  match session c with READY => true | UNINITIALIZED => false end.

(** Modelled from the spec: [init() -> bool]; [result] is what the call
    returns.  A successful init makes the handle READY, a failed one leaves
    it as it was. *)
Definition init (result : bool) (c : SipClient) : SipClient :=
  {| session := if result then READY else session c;
     server_ip := server_ip c; my_ip := my_ip c;
     has_event_handler := has_event_handler c |}.

(** Modelled from the spec: [deinit()], idempotent teardown. *)
Definition deinit (c : SipClient) : SipClient :=
  {| session := UNINITIALIZED;
     server_ip := server_ip c; my_ip := my_ip c;
     has_event_handler := has_event_handler c |}.

(** Modelled from the spec: the address setters write one address field. *)
Definition set_server_ip (s : string) (c : SipClient) : SipClient :=
  {| session := session c; server_ip := s; my_ip := my_ip c;
     has_event_handler := has_event_handler c |}.

Definition set_my_ip (s : string) (c : SipClient) : SipClient :=
  {| session := session c; server_ip := server_ip c; my_ip := s;
     has_event_handler := has_event_handler c |}.

(** Modelled from the spec: [set_event_handler(callback)].  main.cpp
    installs one callback only, the event router. *)
Definition set_event_handler (c : SipClient) : SipClient :=
  {| session := session c; server_ip := server_ip c; my_ip := my_ip c;
     has_event_handler := true |}.

(** main.cpp:250: the client as constructed. *)
Definition new_client (cfg : sdkconfig) : SipClient :=
  {| session := UNINITIALIZED;
     server_ip := CONFIG_SIP_SERVER_IP cfg;
     my_ip := CONFIG_LOCAL_IP cfg;
     has_event_handler := false |}.

(* ===================================================================== *)
(** ** Calls on collaborators *)
(* ===================================================================== *)

Inductive fault := null_client | bad_member_access.

(** What the code does to the outside, one constructor per call. *)
Inductive effect :=
| esp_call (name : string)                 (* a platform call with no state here *)
| ESP_LOGI (text : string)
| esp_event_handler_register (b : esp_event_base_t) (id : Z) (arg : pointer)
| esp_wifi_start
| construct_client
| xTaskCreatePinnedToCore_sip_task
| button_run
| esp_wifi_connect
| client_deinit
| client_set_server_ip (s : string)
| client_set_my_ip (s : string)
| xEventGroupClearBits (bits : Z)
| xEventGroupSetBits (bits : Z)
| xEventGroupWaitBits (bits : Z)           (* the wait returned *)
| client_is_initialized (result : bool)
| client_init (result : bool)
| vTaskDelay (ticks : Z)
| client_set_event_handler
| io_context_run                           (* run() returned *)
| button_call_end
| actuator_trigger
| notified (b : esp_event_base_t) (id : Z) (* the event loop took a notification *)
| panic (f : fault).                       (* undefined access: the firmware aborts *)

(** A computation makes calls in order and either returns or stops at a
    fault. *)
Definition M (A : Type) : Type := (list effect * option A)%type.

Definition ret {A} (a : A) : M A := ([], Some a).

Definition bind {A B} (m : M A) (k : A -> M B) : M B :=
  match m with
  | (es, Some a) => let '(es', r) := k a in (es ++ es', r)
  | (es, None) => (es, None)
  end.

Definition emit (e : effect) : M unit := ([e], Some tt).
Definition raise {A} (f : fault) : M A := ([panic f], None).

Notation "x <- m ;; k" := (bind m (fun x => k))
  (at level 61, m at next level, right associativity).
Notation "m ;; k" := (bind m (fun _ => k))
  (at level 61, right associativity).

(** The calls of a computation, in order. *)
Definition calls {A} (m : M A) : list effect := fst m.

(* ===================================================================== *)
(** ** The link/IP event handler (main.cpp:78-126) *)
(* ===================================================================== *)

(** A member call through [client]. *)
Definition on_client (client : pointer) (e : effect) : M unit :=
  match client with
  | ptr_client => emit e
  | NULL => raise null_client
  | _ => raise bad_member_access
  end.

(** main.cpp:86-92, compiled only with CONFIG_SIP_SERVER_IS_DHCP_SERVER.
    The parameter is a pointer to the whole got-ip event, of which the
    function reads [ip_info.gw]. *)
Definition get_gw_ip_address (got_ip : pointer) : M string :=
  match got_ip with
  | ptr_got_ip e => ret (ip_to_string (gw (ip_info e)))
  | _ => raise bad_member_access
  end.

(** main.cpp:94-97: the parameter is a pointer to one address. *)
Definition get_local_ip_address (got_ip : pointer) : M string :=
  match got_ip with
  | ptr_ip4 a => ret (ip_to_string a)
  | _ => raise bad_member_access
  end.

(** main.cpp:99-126 *)
Definition event_handler (cfg : sdkconfig) (arg : pointer)
    (event_base : esp_event_base_t) (event_id : Z) (event_data : pointer)
    : M unit :=
  let client := arg in
  if base_eqb event_base WIFI_EVENT && (event_id =? WIFI_EVENT_STA_START) then
    emit esp_wifi_connect
  else if base_eqb event_base WIFI_EVENT
          && (event_id =? WIFI_EVENT_STA_DISCONNECTED) then
    on_client client client_deinit ;;
    emit esp_wifi_connect ;;
    emit (xEventGroupClearBits CONNECTED_BIT)
  else if base_eqb event_base IP_EVENT && (event_id =? IP_EVENT_STA_GOT_IP) then
    match event_data with
    | ptr_got_ip ev =>
        emit (ESP_LOGI ("got ip:" ++ IPSTR_IP2STR (ip (ip_info ev)))%string) ;;
        let got_ip := ptr_ip4 (ip (ip_info ev)) in
        (if CONFIG_SIP_SERVER_IS_DHCP_SERVER cfg
         then s <- get_gw_ip_address got_ip ;;
              on_client client (client_set_server_ip s)
         else ret tt) ;;
        s <- get_local_ip_address got_ip ;;
        on_client client (client_set_my_ip s) ;;
        emit (xEventGroupSetBits CONNECTED_BIT)
    | _ => raise bad_member_access
    end
  else ret tt.

(* ===================================================================== *)
(** ** The event router (main.cpp:186-230) *)
(* ===================================================================== *)

(** The lambda handed to [set_event_handler]. *)
Definition event_router (cfg : sdkconfig) (ev : SipClientEvent) : list effect :=
  match event ev with
  | CALL_START =>
      [ESP_LOGI "Call start"]
  | CALL_CANCELLED =>
      [ESP_LOGI "Call cancelled, reason %d"; button_call_end]
  | CALL_END =>
      [ESP_LOGI "Call end"; button_call_end]
  | BUTTON_PRESS =>
      ESP_LOGI "Got button press: %c for %d milliseconds"
      :: (if Ascii.eqb (button_signal ev) (char_at0 (ACTUATOR_PHONE_BUTTON cfg))
          then [actuator_trigger] else [])
  end.

Definition is_call_end (e : effect) : bool :=
  match e with button_call_end => true | _ => false end.

Definition is_trigger (e : effect) : bool :=
  match e with actuator_trigger => true | _ => false end.

(** The calls that reach the button loop owner or the actuator. *)
Definition button_or_actuator (e : effect) : bool := is_call_end e || is_trigger e.

Definition count (p : effect -> bool) (es : list effect) : nat :=
  List.length (filter p es).

(* ===================================================================== *)
(** ** Start-up (main.cpp:128-154 and 237-265) *)
(* ===================================================================== *)

(** [ESP_ERROR_CHECK] aborts start-up when a call fails; the model follows
    the path on which every checked call returns ESP_OK. *)
Definition initialize_wifi : M unit :=
  emit (esp_call "esp_netif_init") ;;
  emit (esp_call "xEventGroupCreate") ;;
  emit (esp_call "esp_event_loop_create_default") ;;
  emit (esp_call "esp_netif_create_default_wifi_sta") ;;
  emit (esp_call "esp_wifi_init") ;;
  emit (esp_call "esp_wifi_set_storage") ;;
  emit (esp_event_handler_register WIFI_EVENT ESP_EVENT_ANY_ID NULL) ;;
  emit (esp_event_handler_register IP_EVENT IP_EVENT_STA_GOT_IP NULL) ;;
  emit (ESP_LOGI "Setting WiFi configuration SSID %s...") ;;
  emit (esp_call "esp_wifi_set_mode") ;;
  emit (esp_call "esp_wifi_set_config") ;;
  emit esp_wifi_start ;;
  emit (ESP_LOGI "esp_wifi_set_ps().") ;;
  emit (esp_call "esp_wifi_set_ps").

Definition app_main : M unit :=
  emit (esp_call "srand") ;;
  emit (esp_call "nvs_flash_init") ;;
  initialize_wifi ;;
  emit (esp_call "srand") ;;
  emit construct_client ;;
  emit (esp_event_handler_register WIFI_EVENT ESP_EVENT_ANY_ID ptr_client) ;;
  emit (esp_event_handler_register IP_EVENT IP_EVENT_STA_GOT_IP ptr_client) ;;
  emit xTaskCreatePinnedToCore_sip_task ;;
  emit button_run.

(* ===================================================================== *)
(** ** The event loop's registrations *)
(* ===================================================================== *)

(** [esp_event_handler_register] keeps one entry per handler function and
    event: registering the same handler for the same event again replaces
    the argument of the entry (esp_event.h).  main.cpp registers one
    handler function only, so an entry is keyed by base and id. *)
Definition registration := (esp_event_base_t * Z * pointer)%type.

Fixpoint register (b : esp_event_base_t) (id : Z) (arg : pointer)
    (reg : list registration) : list registration :=
  match reg with
  | [] => [(b, id, arg)]
  | (b', id', arg') :: rest =>
      if base_eqb b b' && (id =? id') then (b, id, arg) :: rest
      else (b', id', arg') :: register b id arg rest
  end.

Definition matches (b : esp_event_base_t) (id : Z) (r : registration) : bool :=
  let '(b', id', _) := r in
  base_eqb b b' && ((id' =? ESP_EVENT_ANY_ID) || (id' =? id)).

(** The arguments the handler is called with for one posted event. *)
Definition handler_args (reg : list registration) (b : esp_event_base_t) (id : Z)
    : list pointer :=
  map snd (filter (matches b id) reg).

Definition dispatch (cfg : sdkconfig) (reg : list registration)
    (b : esp_event_base_t) (id : Z) (data : pointer) : list effect :=
  flat_map (fun arg => calls (event_handler cfg arg b id data)) (handler_args reg b id).

(* ===================================================================== *)
(** ** The lifecycle loop and the whole system *)
(* ===================================================================== *)

(** Where [sip_task] stands in its loop (main.cpp:171-234). *)
Inductive sip_loc :=
| L_wait          (* 174: xEventGroupWaitBits *)
| L_check         (* 176: client.is_initialized() *)
| L_init          (* 178: client.init() *)
| L_delay         (* 182-184: vTaskDelay, continue *)
| L_set_handler   (* 186: client.set_event_handler(...) *)
| L_run.          (* 233: io_context.run() *)

Record system := {
  client : SipClient;               (* app_main's client *)
  wifi_event_group : Z;             (* the bits of the event group *)
  registry : list registration;     (* the default event loop's handlers *)
  wifi_started : bool;
  main_pending : list effect;       (* what app_main has still to do *)
  evt_pending : list effect;        (* what the running handler has still to do *)
  sip_pc : option sip_loc;          (* None until the task is created *)
  halted : bool
}.

Definition with_client (f : SipClient -> SipClient) (s : system) : system :=
  {| client := f (client s); wifi_event_group := wifi_event_group s;
     registry := registry s; wifi_started := wifi_started s;
     main_pending := main_pending s; evt_pending := evt_pending s;
     sip_pc := sip_pc s; halted := halted s |}.

Definition with_bits (f : Z -> Z) (s : system) : system :=
  {| client := client s; wifi_event_group := f (wifi_event_group s);
     registry := registry s; wifi_started := wifi_started s;
     main_pending := main_pending s; evt_pending := evt_pending s;
     sip_pc := sip_pc s; halted := halted s |}.

Definition with_registry (f : list registration -> list registration)
    (s : system) : system :=
  {| client := client s; wifi_event_group := wifi_event_group s;
     registry := f (registry s); wifi_started := wifi_started s;
     main_pending := main_pending s; evt_pending := evt_pending s;
     sip_pc := sip_pc s; halted := halted s |}.

Definition with_wifi_started (b : bool) (s : system) : system :=
  {| client := client s; wifi_event_group := wifi_event_group s;
     registry := registry s; wifi_started := b;
     main_pending := main_pending s; evt_pending := evt_pending s;
     sip_pc := sip_pc s; halted := halted s |}.

Definition with_main_pending (l : list effect) (s : system) : system :=
  {| client := client s; wifi_event_group := wifi_event_group s;
     registry := registry s; wifi_started := wifi_started s;
     main_pending := l; evt_pending := evt_pending s;
     sip_pc := sip_pc s; halted := halted s |}.

Definition with_evt_pending (l : list effect) (s : system) : system :=
  {| client := client s; wifi_event_group := wifi_event_group s;
     registry := registry s; wifi_started := wifi_started s;
     main_pending := main_pending s; evt_pending := l;
     sip_pc := sip_pc s; halted := halted s |}.

Definition with_sip_pc (pc : option sip_loc) (s : system) : system :=
  {| client := client s; wifi_event_group := wifi_event_group s;
     registry := registry s; wifi_started := wifi_started s;
     main_pending := main_pending s; evt_pending := evt_pending s;
     sip_pc := pc; halted := halted s |}.

Definition with_halted (b : bool) (s : system) : system :=
  {| client := client s; wifi_event_group := wifi_event_group s;
     registry := registry s; wifi_started := wifi_started s;
     main_pending := main_pending s; evt_pending := evt_pending s;
     sip_pc := sip_pc s; halted := b |}.

(** What a call does to the state. *)
Definition apply_effect (cfg : sdkconfig) (e : effect) (s : system) : system :=
  match e with
  | esp_event_handler_register b id arg => with_registry (register b id arg) s
  | esp_wifi_start => with_wifi_started true s
  | construct_client => with_client (fun _ => new_client cfg) s
  | xTaskCreatePinnedToCore_sip_task => with_sip_pc (Some L_wait) s
  | client_deinit => with_client deinit s
  | client_set_server_ip a => with_client (set_server_ip a) s
  | client_set_my_ip a => with_client (set_my_ip a) s
  | xEventGroupClearBits bits => with_bits (fun g => Z.ldiff g bits) s
  | xEventGroupSetBits bits => with_bits (fun g => Z.lor g bits) s
  | client_init r => with_client (init r) s
  | client_set_event_handler => with_client set_event_handler s
  | panic _ => with_halted true s
  | _ => s
  end.

Definition apply_effects (cfg : sdkconfig) (es : list effect) (s : system) : system :=
  fold_left (fun s e => apply_effect cfg e s) es s.

(** [xEventGroupWaitBits(group, CONNECTED_BIT, false, true, portMAX_DELAY)]
    returns once all the bits waited for are set, and leaves them set. *)
Definition link_ready (s : system) : bool :=
  Z.land (wifi_event_group s) CONNECTED_BIT =? CONNECTED_BIT.

(** One move of [sip_task] from [pc]: the calls it makes and where it
    stands next.  [init_result] is what [init()] returns when it is called;
    [io] is what happens inside [io_context.run()]: the session delivers an
    event to the callback, or [run()] returns. *)
Definition sip_task (cfg : sdkconfig) (pc : sip_loc) (s : system)
    (init_result : bool) (io : option SipClientEvent) : list effect * sip_loc :=
  match pc with
  | L_wait =>
      if link_ready s then ([xEventGroupWaitBits CONNECTED_BIT], L_check)
      else ([], L_wait)
  | L_check =>
      let b := is_initialized (client s) in
      ([client_is_initialized b], if b then L_run else L_init)
  | L_init =>
      ([client_init init_result;
        ESP_LOGI (if init_result then "SIP client initialized successfully"
                  else "SIP client initialized unsuccessfully")],
       if init_result then L_set_handler else L_delay)
  | L_delay =>
      ([ESP_LOGI "Waiting to try again..."; vTaskDelay (2000 / portTICK_RATE_MS cfg)],
       L_wait)
  | L_set_handler =>
      ([client_set_event_handler], L_run)
  | L_run =>
      match io with
      | Some ev =>
          (if has_event_handler (client s) then event_router cfg ev else [], L_run)
      | None => ([io_context_run], L_wait)
      end
  end.

(** Which context moves next, with what the outside contributes. *)
Inductive choice :=
| run_main
| deliver (b : esp_event_base_t) (id : Z) (data : pointer)
| run_event_loop
| run_sip (init_result : bool) (io : option SipClientEvent).

Definition step (cfg : sdkconfig) (c : choice) (s : system) : system * list effect :=
  if halted s then (s, []) else
  match c with
  | run_main =>
      match main_pending s with
      | [] => (s, [])
      | e :: rest => (apply_effect cfg e (with_main_pending rest s), [e])
      end
  | deliver b id data =>
      match evt_pending s with
      | [] =>
          if wifi_started s
          then (with_evt_pending (dispatch cfg (registry s) b id data) s, [notified b id])
          else (s, [])
      | _ :: _ => (s, [])
      end
  | run_event_loop =>
      match evt_pending s with
      | [] => (s, [])
      | e :: rest => (apply_effect cfg e (with_evt_pending rest s), [e])
      end
  | run_sip init_result io =>
      match sip_pc s with
      | None => (s, [])
      | Some pc =>
          let '(es, pc') := sip_task cfg pc s init_result io in
          (apply_effects cfg es (with_sip_pc (Some pc') s), es)
      end
  end.

Definition exec (cfg : sdkconfig) (st : system * list effect) (c : choice)
    : system * list effect :=
  let '(s', es) := step cfg c (fst st) in (s', snd st ++ es).

(** The state and the calls made after a schedule, from [s]. *)
Definition run (cfg : sdkconfig) (sched : list choice) (s : system)
    : system * list effect :=
  fold_left (exec cfg) sched (s, []).

(** The system when [app_main] is entered. *)
Definition boot (cfg : sdkconfig) : system :=
  {| client := new_client cfg; wifi_event_group := 0; registry := [];
     wifi_started := false; main_pending := calls app_main;
     evt_pending := []; sip_pc := None; halted := false |}.

(* ===================================================================== *)
(** ** Reading a trace *)
(* ===================================================================== *)

(** Recognisers of single calls. *)
Definition is_client_init (e : effect) : bool :=
  match e with client_init _ => true | _ => false end.

Definition is_set_event_handler (e : effect) : bool :=
  match e with client_set_event_handler => true | _ => false end.

Definition is_set_bits (e : effect) : bool :=
  match e with xEventGroupSetBits _ => true | _ => false end.

(** The calls that create, tear down or rebind the session. *)
Definition touches_session (e : effect) : bool :=
  match e with
  | client_init _ | client_deinit | client_set_event_handler | construct_client => true
  | _ => false
  end.

(** The three calls of the link-disconnected branch (main.cpp:110-113). *)
Definition answers_disconnect (e : effect) : bool :=
  match e with
  | client_deinit | esp_wifi_connect | xEventGroupClearBits _ => true
  | _ => false
  end.

(** All the event loop has left to do is the abort on the null client, or
    the firmware was aborted. *)
Definition null_abort_owed (s : system) : Prop :=
  halted s = true \/ evt_pending s = [panic null_client].

(** The calls that change nothing the invariant speaks of. *)
Definition quiet (e : effect) : bool :=
  match e with
  | ESP_LOGI _ | button_call_end | actuator_trigger | io_context_run => true
  | _ => false
  end.

(** Whether the handle is live after a trace: a successful [init()] makes
    it live, [deinit()] ends that; an [init()] on a live handle is the
    double init. *)
Inductive liveness := not_live | live | double_init.

Definition live_step (l : liveness) (e : effect) : liveness :=
  match e with
  | client_init r =>
      match l with
      | not_live => if r then live else not_live
      | _ => double_init
      end
  | client_deinit =>
      match l with
      | double_init => double_init
      | _ => not_live
      end
  | _ => l
  end.

Definition lifecycle (tr : list effect) : liveness := fold_left live_step tr not_live.

(** The teardown since the event loop last took a notification: not made
    yet, made, or the readiness bit was cleared without it. *)
Inductive teardown := td_not_yet | td_done | td_violated.

Definition torn_step (t : teardown) (e : effect) : teardown :=
  match e with
  | notified _ _ =>
      match t with td_violated => td_violated | _ => td_not_yet end
  | client_deinit =>
      match t with td_violated => td_violated | _ => td_done end
  | xEventGroupClearBits _ =>
      match t with td_done => td_done | _ => td_violated end
  | _ => t
  end.

Definition torn_since_notified (tr : list effect) : teardown :=
  fold_left torn_step tr td_not_yet.

Definition is_done (t : teardown) : bool :=
  match t with td_done => true | _ => false end.

(** The retry delay handed to [vTaskDelay], in ticks (main.cpp:183). *)
Definition retry_ticks (cfg : sdkconfig) : Z := 2000 / portTICK_RATE_MS cfg.

(** What the lifecycle loop owes after an [init()]: after a failure the
    delay and then the wait, after a success the installation of the
    callback.  Another [init()] while something is owed, or an installation
    that is not owed, breaks the discipline. *)
Inductive retry_phase :=
| ph_free | ph_delay_due | ph_wait_due | ph_install_due | ph_broken.

Definition phase_step (ticks : Z) (p : retry_phase) (e : effect) : retry_phase :=
  match e with
  | client_init r =>
      match p with
      | ph_free => if r then ph_install_due else ph_delay_due
      | _ => ph_broken
      end
  | vTaskDelay t =>
      match p with
      | ph_delay_due => if t =? ticks then ph_wait_due else ph_broken
      | _ => p
      end
  | xEventGroupWaitBits b =>
      match p with
      | ph_wait_due => if b =? CONNECTED_BIT then ph_free else ph_broken
      | _ => p
      end
  | client_set_event_handler =>
      match p with
      | ph_install_due => ph_free
      | _ => ph_broken
      end
  | _ => p
  end.

Definition phase (ticks : Z) (tr : list effect) : retry_phase :=
  fold_left (phase_step ticks) tr ph_free.

(** What one pass of the loop calls when [init()] fails. *)
Definition failed_attempt (cfg : sdkconfig) : list effect :=
  [xEventGroupWaitBits CONNECTED_BIT;
   client_is_initialized false;
   client_init false;
   ESP_LOGI "SIP client initialized unsuccessfully";
   ESP_LOGI "Waiting to try again...";
   vTaskDelay (retry_ticks cfg)].

(* ===================================================================== *)
(** ** What start-up and the handler have still to do *)
(* ===================================================================== *)

(** The calls [app_main] makes: registrations, the start of the wireless
    stack and the construction of the client come before the one creation
    of the task. *)
Fixpoint main_wf (created : bool) (l : list effect) : bool :=
  match l with
  | [] => true
  | e :: r =>
      match e with
      | esp_call _ | ESP_LOGI _ | button_run => main_wf created r
      | esp_event_handler_register _ _ _ | esp_wifi_start | construct_client =>
          negb created && main_wf created r
      | xTaskCreatePinnedToCore_sip_task => negb created && main_wf true r
      | _ => false
      end
  end.

(** The registrations and the state of the wireless stack once the calls
    [l] are made. *)
Definition final_registry (reg : list registration) (l : list effect)
    : list registration :=
  fold_left (fun reg e => match e with
                          | esp_event_handler_register b id arg => register b id arg reg
                          | _ => reg
                          end) l reg.

Definition final_started (started : bool) (l : list effect) : bool :=
  fold_left (fun st e => match e with esp_wifi_start => true | _ => st end) l started.

(** The registrations [app_main] leaves. *)
Definition client_registry : list registration :=
  [(WIFI_EVENT, ESP_EVENT_ANY_ID, ptr_client);
   (IP_EVENT, IP_EVENT_STA_GOT_IP, ptr_client)].

(** The calls the handler makes, the readiness bit cleared only after the
    teardown ([torn]: the teardown was already made). *)
Fixpoint evt_wf (torn : bool) (l : list effect) : bool :=
  match l with
  | [] => true
  | e :: r =>
      match e with
      | client_deinit => evt_wf true r
      | xEventGroupClearBits _ => torn && evt_wf torn r
      | esp_wifi_connect | ESP_LOGI _ | client_set_server_ip _
      | client_set_my_ip _ | xEventGroupSetBits _ | panic _ => evt_wf torn r
      | _ => false
      end
  end.

(* ===================================================================== *)
(** ** What holds in every state after start-up *)
(* ===================================================================== *)

(** Whether [sip_task] was created. *)
Definition created (s : system) : bool :=
  match sip_pc s with Some _ => true | None => false end.

(** What is owed fixes where [sip_task] stands. *)
Definition phase_pc_ok (p : retry_phase) (pc : option sip_loc) : Prop :=
  match p with
  | ph_free => pc <> Some L_set_handler
  | ph_delay_due => pc = Some L_delay
  | ph_wait_due => pc = Some L_wait
  | ph_install_due => pc = Some L_set_handler
  | ph_broken => False
  end.

(** The invariant of the system, on a state and the trace that led to it. *)
Record Inv (cfg : sdkconfig) (s : system) (tr : list effect) : Prop := {
  inv_main : main_wf (created s) (main_pending s) = true;
  inv_reg : final_registry (registry s) (main_pending s) = client_registry;
  inv_started : final_started (wifi_started s) (main_pending s) = true;
  inv_torn : torn_since_notified tr <> td_violated;
  inv_evt : evt_wf (is_done (torn_since_notified tr)) (evt_pending s) = true;
  inv_live : lifecycle tr = if is_initialized (client s) then live else not_live;
  inv_init : sip_pc s = Some L_init -> is_initialized (client s) = false;
  inv_none : sip_pc s = None -> is_initialized (client s) = false;
  inv_phase : phase_pc_ok (phase (retry_ticks cfg) tr) (sip_pc s)
}.

(** Two states that differ at most in the two addresses of the client, in
    the bits of the event group and in whether the firmware was aborted. *)
Definition same_session (s s' : system) : Prop :=
  session (client s') = session (client s)
  /\ has_event_handler (client s') = has_event_handler (client s)
  /\ registry s' = registry s
  /\ wifi_started s' = wifi_started s
  /\ main_pending s' = main_pending s
  /\ evt_pending s' = evt_pending s
  /\ sip_pc s' = sip_pc s.

(* ===================================================================== *)
(** ** Schedules and example inputs *)
(* ===================================================================== *)

(** The number of calls [app_main] makes. *)
Definition app_main_length : nat := Eval cbv in List.length (calls app_main).

(** The schedule that lets [app_main] run to its blocking call. *)
Definition boot_schedule : list choice := repeat run_main app_main_length.

(** [sip_task] alone for one pass, [init()] failing. *)
Definition failing_pass (io : option SipClientEvent) : list choice :=
  repeat (run_sip false io) 4.

(** The event loop takes a link-disconnected notification and runs the
    handler to its end. *)
Definition disconnect_handled (data : pointer) : list choice :=
  [deliver WIFI_EVENT WIFI_EVENT_STA_DISCONNECTED data;
   run_event_loop; run_event_loop; run_event_loop].

(** Configurations: one trigger key and a fixed server; the gateway as
    server; a trigger value of two characters. *)
Definition cfg_one_key : sdkconfig :=
  {| CONFIG_ACTUATOR_ACTIVE_HIGH := true;
     CONFIG_ACTUATOR_PHONE_BUTTON := "#";
     CONFIG_SIP_SERVER_IS_DHCP_SERVER := false;
     CONFIG_SIP_SERVER_IP := "192.168.179.1";
     CONFIG_LOCAL_IP := "192.168.179.30";
     configTICK_RATE_HZ := 100 |}.

Definition cfg_gateway : sdkconfig :=
  {| CONFIG_ACTUATOR_ACTIVE_HIGH := true;
     CONFIG_ACTUATOR_PHONE_BUTTON := "#";
     CONFIG_SIP_SERVER_IS_DHCP_SERVER := true;
     CONFIG_SIP_SERVER_IP := "192.168.179.1";
     CONFIG_LOCAL_IP := "192.168.179.30";
     configTICK_RATE_HZ := 100 |}.

Definition cfg_two_keys : sdkconfig :=
  {| CONFIG_ACTUATOR_ACTIVE_HIGH := true;
     CONFIG_ACTUATOR_PHONE_BUTTON := "12";
     CONFIG_SIP_SERVER_IS_DHCP_SERVER := false;
     CONFIG_SIP_SERVER_IP := "192.168.179.1";
     CONFIG_LOCAL_IP := "192.168.179.30";
     configTICK_RATE_HZ := 100 |}.

(** 192.168.4.50 with gateway 192.168.4.1, as the words are stored. *)
Definition got_ip_example : ip_event_got_ip_t :=
  {| ip_info := {| ip := {| addr := 0x3204A8C0 |};
                   netmask := {| addr := 0x00FFFFFF |};
                   gw := {| addr := 0x0104A8C0 |} |};
     ip_changed := true |}.

(** A BUTTON_PRESS event. *)
Definition press (sig : ascii) (dur : Z) : SipClientEvent :=
  {| event := BUTTON_PRESS; cancel_reason := 0;
     button_signal := sig; button_duration := dur |}.

(** The button-press rule with "the signal equals the configured value"
    read on the configured string as a whole. *)
Definition button_press_as_stated (cfg : sdkconfig) (sig : ascii) (dur : Z) : Prop :=
  let es := event_router cfg (press sig dur) in
  (String sig "" = ACTUATOR_PHONE_BUTTON cfg ->
     count is_trigger es = 1%nat /\ count is_call_end es = 0%nat)
  /\ (String sig "" <> ACTUATOR_PHONE_BUTTON cfg ->
     filter button_or_actuator es = []).

(** Start-up, then the link comes up: started, address acquired. *)
Definition link_up : list choice :=
  boot_schedule
  ++ [deliver WIFI_EVENT WIFI_EVENT_STA_START NULL; run_event_loop;
      deliver IP_EVENT IP_EVENT_STA_GOT_IP (ptr_got_ip got_ip_example);
      run_event_loop; run_event_loop; run_event_loop].

(** The state the link-up schedule leads to. *)
Definition s_link_up : system := fst (run cfg_one_key link_up (boot cfg_one_key)).

(** After the link came up, [init()] fails: the loop is in its delay. *)
Definition link_up_init_failed : list choice :=
  link_up ++ [run_sip false None; run_sip false None; run_sip false None].

(* ===================================================================== *)
(** ** Further readings of a trace and of a schedule *)
(* ===================================================================== *)

(** A string without a dot. *)
Fixpoint dot_free (s : string) : bool :=
  match s with
  | EmptyString => true
  | String c r => negb (Ascii.eqb c ".") && dot_free r
  end.

(** The address whose bytes in memory are [b0], [b1], [b2], [b3]. *)
Definition ip4_of_bytes (b0 b1 b2 b3 : Z) : esp_ip4_addr_t :=
  {| addr := b0 + 256 * b1 + 65536 * b2 + 16777216 * b3 |}.

(** [checked ok upd st tr]: each call of [tr] passes [ok] in the reading
    [upd] gives of the calls before it, starting from [st]. *)
Fixpoint checked {St : Type} (ok : St -> effect -> bool) (upd : St -> effect -> St)
    (st : St) (tr : list effect) : bool :=
  match tr with
  | [] => true
  | e :: r => ok st e && checked ok upd (upd st e) r
  end.

(** The notification the event loop took last. *)
Definition note_step (n : option (esp_event_base_t * Z)) (e : effect)
    : option (esp_event_base_t * Z) :=
  match e with
  | notified b id => Some (b, id)
  | _ => n
  end.

Definition last_notified (tr : list effect) : option (esp_event_base_t * Z) :=
  fold_left note_step tr None.

Definition is_notification (n : option (esp_event_base_t * Z))
    (b : esp_event_base_t) (id : Z) : bool :=
  match n with
  | Some (b', id') => base_eqb b' b && (id' =? id)
  | None => false
  end.

(** Which calls of the handler belong to which notification: teardown and
    the clearing of the readiness bit to link-disconnected, the local
    address and the setting of the bit to address-acquired, the server
    address to address-acquired under the gateway option, association to
    link-started and link-disconnected, an abort to the two notifications
    that use the client.  Calls of the other contexts pass. *)
Definition allowed (cfg : sdkconfig) (n : option (esp_event_base_t * Z))
    (e : effect) : bool :=
  match e with
  | client_deinit =>
      is_notification n WIFI_EVENT WIFI_EVENT_STA_DISCONNECTED
  | xEventGroupClearBits bits =>
      is_notification n WIFI_EVENT WIFI_EVENT_STA_DISCONNECTED
      && (bits =? CONNECTED_BIT)
  | xEventGroupSetBits bits =>
      is_notification n IP_EVENT IP_EVENT_STA_GOT_IP && (bits =? CONNECTED_BIT)
  | client_set_my_ip _ =>
      is_notification n IP_EVENT IP_EVENT_STA_GOT_IP
  | client_set_server_ip _ =>
      is_notification n IP_EVENT IP_EVENT_STA_GOT_IP
      && CONFIG_SIP_SERVER_IS_DHCP_SERVER cfg
  | esp_wifi_connect =>
      is_notification n WIFI_EVENT WIFI_EVENT_STA_START
      || is_notification n WIFI_EVENT WIFI_EVENT_STA_DISCONNECTED
  | panic _ =>
      is_notification n WIFI_EVENT WIFI_EVENT_STA_DISCONNECTED
      || is_notification n IP_EVENT IP_EVENT_STA_GOT_IP
  | _ => true
  end.

(** Whether the callback was installed, and the calls that are made from
    inside [io_context.run()]. *)
Definition inst_step (installed : bool) (e : effect) : bool :=
  installed || is_set_event_handler e.

Definition installed (tr : list effect) : bool := fold_left inst_step tr false.

Definition needs_callback (e : effect) : bool :=
  match e with
  | io_context_run | button_call_end | actuator_trigger => true
  | _ => false
  end.

Definition after_install (installed : bool) (e : effect) : bool :=
  if needs_callback e then installed else true.

(** A move of [sip_task] in which the session delivers a BUTTON_PRESS with
    the trigger signal, and one in which it delivers the end of a call. *)
Definition matching_press (cfg : sdkconfig) (c : choice) : bool :=
  match c with
  | run_sip _ (Some ev) =>
      match event ev with
      | BUTTON_PRESS =>
          Ascii.eqb (button_signal ev) (char_at0 (ACTUATOR_PHONE_BUTTON cfg))
      | _ => false
      end
  | _ => false
  end.

Definition call_ended (c : choice) : bool :=
  match c with
  | run_sip _ (Some ev) =>
      match event ev with
      | CALL_END | CALL_CANCELLED => true
      | _ => false
      end
  | _ => false
  end.

(** What the pass calls in which [init()] succeeds, and the schedule of
    that pass up to the entry of [io_context.run()]. *)
Definition successful_attempt : list effect :=
  [xEventGroupWaitBits CONNECTED_BIT;
   client_is_initialized false;
   client_init true;
   ESP_LOGI "SIP client initialized successfully";
   client_set_event_handler].

Definition succeeding_pass (io : option SipClientEvent) : list choice :=
  repeat (run_sip true io) 4.

(** A pass on a live handle, in which [io_context.run()] returns at once. *)
Definition ready_pass_calls : list effect :=
  [xEventGroupWaitBits CONNECTED_BIT; client_is_initialized true; io_context_run].

Definition ready_pass (r : bool) : list choice := repeat (run_sip r None) 3.

Definition is_delay (e : effect) : bool :=
  match e with vTaskDelay _ => true | _ => false end.

Definition is_successful_init (e : effect) : bool :=
  match e with client_init true => true | _ => false end.

(** The state in which a successful pass leaves the loop: the handle
    READY, the callback installed, [sip_task] in [io_context.run()]. *)
Definition after_successful_pass (s : system) : system :=
  with_sip_pc (Some L_run)
    (with_client (fun c => set_event_handler (init true c)) s).

(** The bits of the event group as the calls of a trace write them, and
    whether the last write of a trace set the readiness bit. *)
Definition bits_step (g : Z) (e : effect) : Z :=
  match e with
  | xEventGroupSetBits bits => Z.lor g bits
  | xEventGroupClearBits bits => Z.ldiff g bits
  | _ => g
  end.

Definition ready_step (ready : bool) (e : effect) : bool :=
  match e with
  | xEventGroupSetBits _ => true
  | xEventGroupClearBits _ => false
  | _ => ready
  end.

Definition ready_after (tr : list effect) : bool := fold_left ready_step tr false.

(** The event loop takes an address-acquired notification and runs the
    handler to its end. *)
Definition got_ip_handled (ev : ip_event_got_ip_t) : list choice :=
  [deliver IP_EVENT IP_EVENT_STA_GOT_IP (ptr_got_ip ev);
   run_event_loop; run_event_loop; run_event_loop].

(** Link loss while [io_context.run()] is entered, the return of the run,
    a move of the loop at the cleared bit, a new address, and a pass in
    which [init()] succeeds. *)
Definition reconnect (data : pointer) (ev : ip_event_got_ip_t) : list choice :=
  disconnect_handled data
  ++ [run_sip true None; run_sip true None]
  ++ got_ip_handled ev
  ++ succeeding_pass None.

Definition reconnect_calls (ev : ip_event_got_ip_t) : list effect :=
  [notified WIFI_EVENT WIFI_EVENT_STA_DISCONNECTED;
   client_deinit; esp_wifi_connect; xEventGroupClearBits CONNECTED_BIT;
   io_context_run;
   notified IP_EVENT IP_EVENT_STA_GOT_IP;
   ESP_LOGI ("got ip:" ++ IPSTR_IP2STR (ip (ip_info ev)))%string;
   client_set_my_ip (ip_to_string (ip (ip_info ev)));
   xEventGroupSetBits CONNECTED_BIT]
  ++ successful_attempt.

(** The invariant behind the further properties. *)
Record Inv2 (cfg : sdkconfig) (s : system) (tr : list effect) : Prop := {
  inv2_base : Inv cfg s tr;
  inv2_pending : forallb (allowed cfg (last_notified tr)) (evt_pending s) = true;
  inv2_origin : checked (allowed cfg) note_step None tr = true;
  inv2_server : CONFIG_SIP_SERVER_IS_DHCP_SERVER cfg = false ->
                server_ip (client s) = CONFIG_SIP_SERVER_IP cfg;
  inv2_bits : wifi_event_group s = 0 \/ wifi_event_group s = CONNECTED_BIT;
  inv2_not_installed :
    installed tr = false ->
    sip_pc s <> Some L_run
    /\ (is_initialized (client s) = true -> sip_pc s = Some L_set_handler);
  inv2_callback : checked after_install inst_step false tr = true;
  inv2_none : sip_pc s = None -> installed tr = false;
  inv2_handler : has_event_handler (client s) = installed tr
}.

(* ===================================================================== *)
(** ** Basic facts *)
(* ===================================================================== *)

Lemma print_d_length (n : Z) : (String.length (print_d n) <= 3)%nat.
Proof.
  unfold print_d. destruct (n <? 10); [simpl; lia |].
  destruct (n <? 100); simpl; lia.
Qed.

Lemma length_append (s1 s2 : string) :
  String.length (s1 ++ s2)%string = (String.length s1 + String.length s2)%nat.
Proof.
  induction s1 as [|c s1 IH]; simpl; [reflexivity | rewrite IH; reflexivity].
Qed.

Lemma take_chars_all (n : nat) (s : string) :
  (String.length s <= n)%nat -> take_chars n s = s.
Proof.
  revert s. induction n as [|n IH]; intros [|c s] H; simpl in *;
    try reflexivity; [lia |].
  rewrite IH by lia. reflexivity.
Qed.

(** The buffer of [ip_to_string] holds every address: the text is never
    cut. *)
Lemma ip_to_string_not_cut (a : esp_ip4_addr_t) :
  ip_to_string a = IPSTR_IP2STR a.
Proof.
  unfold ip_to_string. apply take_chars_all.
  unfold IPSTR_IP2STR. rewrite !length_append.
  pose proof (print_d_length (esp_ip4_addr_get_byte a 0)) as H0.
  pose proof (print_d_length (esp_ip4_addr_get_byte a 1)) as H1.
  pose proof (print_d_length (esp_ip4_addr_get_byte a 2)) as H2.
  pose proof (print_d_length (esp_ip4_addr_get_byte a 3)) as H3.
  revert H0 H1 H2 H3.
  generalize (String.length (print_d (esp_ip4_addr_get_byte a 0))),
             (String.length (print_d (esp_ip4_addr_get_byte a 1))),
             (String.length (print_d (esp_ip4_addr_get_byte a 2))),
             (String.length (print_d (esp_ip4_addr_get_byte a 3))).
  intros n0 n1 n2 n3 H0 H1 H2 H3.
  change (String.length ".") with 1%nat.
  change (16 - 1)%nat with 15%nat. lia.
Qed.

Lemma land_lor_same (g b : Z) : Z.land (Z.lor g b) b = b.
Proof.
  apply Z.bits_inj'; intros n _.
  rewrite Z.land_spec, Z.lor_spec.
  destruct (Z.testbit g n), (Z.testbit b n); reflexivity.
Qed.

Lemma link_ready_after_set (cfg : sdkconfig) (s : system) :
  link_ready (apply_effect cfg (xEventGroupSetBits CONNECTED_BIT) s) = true.
Proof.
  unfold link_ready; simpl. rewrite land_lor_same. reflexivity.
Qed.

Lemma link_ready_after_clear (cfg : sdkconfig) (s : system) :
  link_ready (apply_effect cfg (xEventGroupClearBits CONNECTED_BIT) s) = false.
Proof.
  unfold link_ready; simpl. rewrite Z.land_ldiff. reflexivity.
Qed.

(** The handler on an address-acquired notification, without the
    gateway option: log, local address, readiness. *)
Lemma got_ip_without_gateway_option (cfg : sdkconfig) (ev : ip_event_got_ip_t) :
  CONFIG_SIP_SERVER_IS_DHCP_SERVER cfg = false ->
  calls (event_handler cfg ptr_client IP_EVENT IP_EVENT_STA_GOT_IP (ptr_got_ip ev)) =
  [ESP_LOGI ("got ip:" ++ IPSTR_IP2STR (ip (ip_info ev)))%string;
   client_set_my_ip (ip_to_string (ip (ip_info ev)));
   xEventGroupSetBits CONNECTED_BIT].
Proof.
  intros H. unfold event_handler. simpl. rewrite H. reflexivity.
Qed.

(** When [app_main] blocks in the button loop the handler is registered
    with the client. *)
Lemma registry_after_boot (cfg : sdkconfig) :
  registry (fst (run cfg boot_schedule (boot cfg))) = client_registry.
Proof. reflexivity. Qed.

(* ===================================================================== *)
(** ** The handler, the configuration and start-up *)
(* ===================================================================== *)

(** Called with the client, the handler makes exactly three calls on a
    link-disconnected notification, in this order: [deinit()],
    [esp_wifi_connect()] and [xEventGroupClearBits] of CONNECTED_BIT.  This
    is what the event loop runs for the notification once [app_main] has
    registered the handler with the client, and after the three calls the
    handle is not initialized and the readiness bit is clear. *)
Lemma disconnected_on_client :
  forall (cfg : sdkconfig) (data : pointer),
    let three := [client_deinit; esp_wifi_connect; xEventGroupClearBits CONNECTED_BIT] in
    calls (event_handler cfg ptr_client WIFI_EVENT WIFI_EVENT_STA_DISCONNECTED data)
      = three
    /\ dispatch cfg (registry (fst (run cfg boot_schedule (boot cfg))))
         WIFI_EVENT WIFI_EVENT_STA_DISCONNECTED data = three
    /\ forall s : system,
         is_initialized (client (apply_effects cfg three s)) = false
         /\ link_ready (apply_effects cfg three s) = false.
Proof.
  intros cfg data three. split; [reflexivity | split; [reflexivity |]].
  intros s. split; [reflexivity |].
  unfold three, apply_effects. cbn [fold_left].
  apply (link_ready_after_clear cfg).
Qed.

Lemma same_session_effects (cfg : sdkconfig) (es : list effect) :
  (forall e s, In e es -> same_session s (apply_effect cfg e s)) ->
  forall s, same_session s (apply_effects cfg es s).
Proof.
  unfold apply_effects.
  induction es as [|e es IH]; intros Hone s; simpl.
  - repeat split.
  - destruct (Hone e s (or_introl eq_refl)) as (H1 & H2 & H3 & H4 & H5 & H6 & H7).
    destruct (IH (fun x t Hx => Hone x t (or_intror Hx)) (apply_effect cfg e s))
      as (G1 & G2 & G3 & G4 & G5 & G6 & G7).
    repeat split; congruence.
Qed.

Lemma got_ip_calls_shape (cfg : sdkconfig) (arg data : pointer) :
  Forall (fun e => match e with
                   | ESP_LOGI _ | client_set_server_ip _ | client_set_my_ip _
                   | xEventGroupSetBits _ | panic _ => True
                   | _ => False
                   end)
    (calls (event_handler cfg arg IP_EVENT IP_EVENT_STA_GOT_IP data)).
Proof.
  unfold event_handler; simpl.
  destruct data as [| |ev|a]; simpl; try (repeat constructor).
  destruct (CONFIG_SIP_SERVER_IS_DHCP_SERVER cfg); simpl;
    destruct arg; simpl; repeat constructor.
Qed.

(** C10. The handler's address-acquired branch never calls [init()],
    [deinit()] or [set_event_handler] (nor constructs the client): each call
    it makes, and so all of them together, leaves the session state of the
    handle, its installed callback, the registrations, the start-up and
    handler queues and the position of [sip_task] as they were; only the two
    addresses of the client and the bits of the event group are written. *)
Theorem C10_got_ip_leaves_session_alone :
  forall (cfg : sdkconfig) (arg data : pointer),
    let es := calls (event_handler cfg arg IP_EVENT IP_EVENT_STA_GOT_IP data) in
    (forall e, In e es -> touches_session e = false)
    /\ (forall e s, In e es -> same_session s (apply_effect cfg e s))
    /\ (forall s, same_session s (apply_effects cfg es s)).
Proof.
  intros cfg arg data es.
  pose proof (got_ip_calls_shape cfg arg data) as Hshape.
  fold es in Hshape. rewrite Forall_forall in Hshape.
  assert (Hone : forall e s, In e es -> same_session s (apply_effect cfg e s)).
  { intros e s Hin. specialize (Hshape e Hin).
    destruct e; try contradiction; repeat split. }
  split; [| split; [exact Hone |]].
  - intros e Hin. specialize (Hshape e Hin). destruct e; try contradiction; reflexivity.
  - intros s. apply same_session_effects. exact Hone.
Qed.

(** C6, on the code: with CONFIG_SIP_SERVER_IS_DHCP_SERVER set, the
    address-acquired branch hands [get_gw_ip_address] the pointer to the
    [ip] member instead of the got-ip event, so the gateway is never read:
    the handler stops at that access, having recorded no address and
    without setting the readiness bit. *)
Theorem C6_gateway_option_never_records_gateway :
  forall (cfg : sdkconfig) (ev : ip_event_got_ip_t),
    CONFIG_SIP_SERVER_IS_DHCP_SERVER cfg = true ->
    calls (event_handler cfg ptr_client IP_EVENT IP_EVENT_STA_GOT_IP (ptr_got_ip ev)) =
    [ESP_LOGI ("got ip:" ++ IPSTR_IP2STR (ip (ip_info ev)))%string;
     panic bad_member_access].
Proof.
  intros cfg ev H. unfold event_handler. simpl. rewrite H. reflexivity.
Qed.

Lemma C6_gateway_option_witness :
  ip_to_string (gw (ip_info got_ip_example)) = "192.168.4.1"
  /\ calls (event_handler cfg_gateway ptr_client IP_EVENT IP_EVENT_STA_GOT_IP
              (ptr_got_ip got_ip_example)) =
     [ESP_LOGI "got ip:192.168.4.50"; panic bad_member_access].
Proof.
  split; [reflexivity |].
  exact (C6_gateway_option_never_records_gateway cfg_gateway got_ip_example eq_refl).
Defined.

(** C5, on the code: whenever the program builds, the polarity of the
    actuator handler it runs with is the opposite of the configured one;
    with the option unset there is no program. *)
Theorem C5_polarity_is_inverted :
  forall cfg : sdkconfig,
    match running_actuator_polarity cfg with
    | Some p => CONFIG_ACTUATOR_ACTIVE_HIGH cfg = true /\ p = false
    | None => CONFIG_ACTUATOR_ACTIVE_HIGH cfg = false
    end.
Proof.
  intros cfg. unfold running_actuator_polarity, ACTUATOR_ACTIVE_HIGH.
  destruct (CONFIG_ACTUATOR_ACTIVE_HIGH cfg); simpl; auto.
Qed.

(** C9, on the code: [initialize_wifi] registers the handler with a null
    argument and starts the wireless stack; until [app_main] registers it
    again with the client, a link-disconnected notification runs the handler
    on the null pointer, and its first call, [deinit()], is made through it. *)
Theorem C9_disconnect_before_client_registered :
  forall (cfg : sdkconfig) (data : pointer),
    let sched := repeat run_main 14
                 ++ [deliver WIFI_EVENT WIFI_EVENT_STA_DISCONNECTED data;
                     run_event_loop] in
    let s_started := fst (run cfg (repeat run_main 14) (boot cfg)) in
    wifi_started s_started = true
    /\ handler_args (registry s_started) WIFI_EVENT WIFI_EVENT_STA_DISCONNECTED = [NULL]
    /\ handler_args (registry s_started) IP_EVENT IP_EVENT_STA_GOT_IP = [NULL]
    /\ skipn 14 (snd (run cfg sched (boot cfg))) =
       [notified WIFI_EVENT WIFI_EVENT_STA_DISCONNECTED; panic null_client]
    /\ halted (fst (run cfg sched (boot cfg))) = true.
Proof.
  intros cfg data. repeat split; reflexivity.
Qed.

(* ===================================================================== *)
(** ** The event router *)
(* ===================================================================== *)

(** C7. A CALL_END event and a CALL_CANCELLED event each make exactly one
    [call_end()] call and no [trigger()]; a CALL_START event makes no call
    on the button loop owner or the actuator. *)
Theorem C7_call_events :
  forall (cfg : sdkconfig) (reason : Z) (sig : ascii) (dur : Z),
    let ev e := {| event := e; cancel_reason := reason;
                   button_signal := sig; button_duration := dur |} in
    (count is_call_end (event_router cfg (ev CALL_END)) = 1%nat
     /\ count is_trigger (event_router cfg (ev CALL_END)) = 0%nat)
    /\ (count is_call_end (event_router cfg (ev CALL_CANCELLED)) = 1%nat
        /\ count is_trigger (event_router cfg (ev CALL_CANCELLED)) = 0%nat)
    /\ filter button_or_actuator (event_router cfg (ev CALL_START)) = [].
Proof.
  intros. repeat split; reflexivity.
Qed.

(** C4, counterexample: with the configured value "12", the signal '1' is
    not the configured value and still triggers the actuator. *)
Lemma C4_counterexample_two_keys :
  String "1" "" <> ACTUATOR_PHONE_BUTTON cfg_two_keys
  /\ filter button_or_actuator (event_router cfg_two_keys (press "1" 500))
     = [actuator_trigger]
  /\ ~ button_press_as_stated cfg_two_keys "1" 500.
Proof.
  split; [discriminate | split; [reflexivity |]].
  intros [_ H]. assert (Hne : String "1" "" <> ACTUATOR_PHONE_BUTTON cfg_two_keys)
    by discriminate.
  specialize (H Hne). discriminate H.
Qed.

(** With a configured value of one character the rule holds as stated. *)
Lemma button_press_one_character (cfg : sdkconfig) (c sig : ascii) (dur : Z) :
  ACTUATOR_PHONE_BUTTON cfg = String c "" ->
  button_press_as_stated cfg sig dur.
Proof.
  intros Hc. unfold button_press_as_stated, event_router; simpl.
  rewrite Hc; simpl. destruct (Ascii.eqb_spec sig c) as [->|Hne].
  - split; [intros _; split; reflexivity | intros H; contradiction H; reflexivity].
  - split; [intros H; inversion H; contradiction | reflexivity].
Qed.

(** C4, amended. For every BUTTON_PRESS event: when the signal is the
    first character of the configured value, [trigger()] is called exactly
    once (and [call_end()] is not); for any other signal no call reaches the
    button loop owner or the actuator. *)
Theorem C4_button_press_first_character :
  forall (cfg : sdkconfig) (reason : Z) (sig : ascii) (dur : Z),
    let es := event_router cfg {| event := BUTTON_PRESS; cancel_reason := reason;
                                  button_signal := sig; button_duration := dur |} in
    (sig = char_at0 (ACTUATOR_PHONE_BUTTON cfg) ->
       count is_trigger es = 1%nat /\ count is_call_end es = 0%nat)
    /\ (sig <> char_at0 (ACTUATOR_PHONE_BUTTON cfg) ->
       filter button_or_actuator es = []).
Proof.
  intros cfg reason sig dur es. unfold es, event_router; simpl.
  destruct (Ascii.eqb_spec sig (char_at0 (ACTUATOR_PHONE_BUTTON cfg))) as [Heq|Hne].
  - split; [intros _; split; reflexivity | intros H; contradiction].
  - split; [intros H; contradiction | reflexivity].
Qed.

(* ===================================================================== *)
(** ** Runs of the system *)
(* ===================================================================== *)

Lemma fold_exec (cfg : sdkconfig) (sched : list choice) (s : system) (tr : list effect) :
  fold_left (exec cfg) sched (s, tr) =
  (fst (run cfg sched s), tr ++ snd (run cfg sched s)).
Proof.
  unfold run. revert s tr.
  induction sched as [|c sched IH]; intros s tr; simpl.
  - rewrite app_nil_r. reflexivity.
  - destruct (step cfg c s) as [s1 es] eqn:E.
    assert (E1 : exec cfg (s, tr) c = (s1, tr ++ es)) by (unfold exec; simpl; rewrite E; reflexivity).
    assert (E2 : exec cfg (s, []) c = (s1, es)) by (unfold exec; simpl; rewrite E; reflexivity).
    rewrite E1, E2, (IH s1 (tr ++ es)), (IH s1 es). simpl.
    rewrite app_assoc. reflexivity.
Qed.

Lemma run_app (cfg : sdkconfig) (a b : list choice) (s : system) :
  run cfg (a ++ b) s =
  (fst (run cfg b (fst (run cfg a s))),
   snd (run cfg a s) ++ snd (run cfg b (fst (run cfg a s)))).
Proof.
  unfold run at 1. rewrite fold_left_app. fold (run cfg a s).
  destruct (run cfg a s) as [s1 t1]; simpl. apply fold_exec.
Qed.

Lemma run_one (cfg : sdkconfig) (c : choice) (s : system) :
  run cfg [c] s = step cfg c s.
Proof.
  unfold run, exec; simpl. destruct (step cfg c s); reflexivity.
Qed.

Lemma run_snoc (cfg : sdkconfig) (sched : list choice) (c : choice) (s : system) :
  run cfg (sched ++ [c]) s =
  (fst (step cfg c (fst (run cfg sched s))),
   snd (run cfg sched s) ++ snd (step cfg c (fst (run cfg sched s)))).
Proof. rewrite run_app, run_one. reflexivity. Qed.

(** A property of state and trace that holds at the start and is kept by
    every step holds after every schedule. *)
Lemma run_invariant (cfg : sdkconfig) (I : system -> list effect -> Prop) (s0 : system) :
  I s0 [] ->
  (forall s tr c, I s tr -> I (fst (step cfg c s)) (tr ++ snd (step cfg c s))) ->
  forall sched, I (fst (run cfg sched s0)) (snd (run cfg sched s0)).
Proof.
  intros H0 Hstep sched.
  induction sched as [|c sched IH] using rev_ind.
  - exact H0.
  - rewrite run_snoc; simpl. apply Hstep. exact IH.
Qed.

(* ===================================================================== *)
(** ** Facts about the readings *)
(* ===================================================================== *)

Lemma lifecycle_app (tr es : list effect) :
  lifecycle (tr ++ es) = fold_left live_step es (lifecycle tr).
Proof. unfold lifecycle. apply fold_left_app. Qed.

Lemma torn_app (tr es : list effect) :
  torn_since_notified (tr ++ es) = fold_left torn_step es (torn_since_notified tr).
Proof. unfold torn_since_notified. apply fold_left_app. Qed.

Lemma phase_app (ticks : Z) (tr es : list effect) :
  phase ticks (tr ++ es) = fold_left (phase_step ticks) es (phase ticks tr).
Proof. unfold phase. apply fold_left_app. Qed.

Lemma evt_wf_mono (l : list effect) (t : bool) :
  evt_wf false l = true -> evt_wf t l = true.
Proof.
  destruct t; [| auto].
  induction l as [|e l IH]; simpl; [reflexivity |].
  destruct e; auto. discriminate.
Qed.

Lemma evt_wf_app (l1 l2 : list effect) (t : bool) :
  evt_wf t l1 = true -> evt_wf false l2 = true -> evt_wf t (l1 ++ l2) = true.
Proof.
  revert t. induction l1 as [|e l1 IH]; intros t H1 H2; simpl in *.
  - apply evt_wf_mono; exact H2.
  - destruct e; try discriminate; try (apply IH; assumption).
    apply andb_true_iff in H1 as [Ht H1]. subst t; simpl. apply IH; assumption.
Qed.

Lemma handler_calls_wf (cfg : sdkconfig) (arg : pointer) (b : esp_event_base_t)
    (id : Z) (data : pointer) :
  evt_wf false (calls (event_handler cfg arg b id data)) = true.
Proof.
  unfold event_handler.
  destruct (base_eqb b WIFI_EVENT && (id =? WIFI_EVENT_STA_START)); [reflexivity |].
  destruct (base_eqb b WIFI_EVENT && (id =? WIFI_EVENT_STA_DISCONNECTED)).
  { destruct arg; reflexivity. }
  destruct (base_eqb b IP_EVENT && (id =? IP_EVENT_STA_GOT_IP)); [| reflexivity].
  destruct data as [| |ev|a]; try reflexivity.
  destruct (CONFIG_SIP_SERVER_IS_DHCP_SERVER cfg); destruct arg; reflexivity.
Qed.

Lemma dispatch_wf (cfg : sdkconfig) (reg : list registration) (b : esp_event_base_t)
    (id : Z) (data : pointer) :
  evt_wf false (dispatch cfg reg b id data) = true.
Proof.
  unfold dispatch. induction (handler_args reg b id) as [|arg l IH]; simpl.
  - reflexivity.
  - apply evt_wf_app; [apply handler_calls_wf | exact IH].
Qed.

(* ===================================================================== *)
(** ** What every reachable state satisfies *)
(* ===================================================================== *)

Lemma inv_boot (cfg : sdkconfig) : Inv cfg (boot cfg) [].
Proof.
  constructor; try reflexivity; try (vm_compute; discriminate).
Qed.

Ltac scan_snoc :=
  rewrite ?lifecycle_app, ?torn_app, ?phase_app; cbn [fold_left].

Lemma inv_main_step (cfg : sdkconfig) (s : system) (tr : list effect)
    (e : effect) (rest : list effect) :
  Inv cfg s tr -> main_pending s = e :: rest ->
  Inv cfg (apply_effect cfg e (with_main_pending rest s)) (tr ++ [e]).
Proof.
  intros [Hm Hr Hw Ht He Hl Hi Hn Hp] Hpend. rewrite Hpend in Hm, Hr, Hw.
  unfold created in Hm. simpl in Hr, Hw.
  destruct (torn_since_notified tr) eqn:Etorn; try congruence;
  destruct (phase (retry_ticks cfg) tr) eqn:Eph; try contradiction;
  destruct e; simpl in Hm; try discriminate;
  try (apply andb_true_iff in Hm as [Hc Hm]; destruct (sip_pc s) eqn:Epc; try discriminate);
  constructor; scan_snoc; rewrite ?Etorn, ?Eph; simpl;
  unfold created; simpl; rewrite ?Epc;
  try assumption; try discriminate; try congruence; auto.
  all: rewrite Hl, (Hn eq_refl); reflexivity.
Qed.

Lemma inv_deliver_step (cfg : sdkconfig) (s : system) (tr : list effect)
    (b : esp_event_base_t) (id : Z) (data : pointer) :
  Inv cfg s tr ->
  Inv cfg (with_evt_pending (dispatch cfg (registry s) b id data) s)
      (tr ++ [notified b id]).
Proof.
  intros [Hm Hr Hw Ht He Hl Hi Hn Hp].
  assert (Etorn : torn_since_notified (tr ++ [notified b id]) = td_not_yet).
  { scan_snoc. destruct (torn_since_notified tr); try reflexivity. congruence. }
  constructor; simpl; try assumption.
  - rewrite Etorn; discriminate.
  - rewrite Etorn. apply dispatch_wf.
  - scan_snoc. assumption.
  - scan_snoc. destruct (phase (retry_ticks cfg) tr); assumption.
Qed.

Lemma inv_evt_step (cfg : sdkconfig) (s : system) (tr : list effect)
    (e : effect) (rest : list effect) :
  Inv cfg s tr -> evt_pending s = e :: rest ->
  Inv cfg (apply_effect cfg e (with_evt_pending rest s)) (tr ++ [e]).
Proof.
  intros [Hm Hr Hw Ht He Hl Hi Hn Hp] Hpend. rewrite Hpend in He.
  destruct (torn_since_notified tr) eqn:Etorn; try congruence;
  destruct (phase (retry_ticks cfg) tr) eqn:Eph; try contradiction;
  destruct e; simpl in He; try discriminate;
  constructor; scan_snoc; rewrite ?Etorn, ?Eph; simpl;
  try assumption; try discriminate; try congruence; auto;
  try (rewrite Hl; unfold is_initialized; simpl;
       destruct (session (client s)); reflexivity).
Qed.

Lemma quiet_apply (cfg : sdkconfig) (es : list effect) (s : system) :
  forallb quiet es = true -> apply_effects cfg es s = s.
Proof.
  unfold apply_effects. revert s.
  induction es as [|e es IH]; intros s H; simpl in *; [reflexivity |].
  apply andb_true_iff in H as [He H]. destruct e; try discriminate; auto.
Qed.

Lemma quiet_lifecycle (es : list effect) (l : liveness) :
  forallb quiet es = true -> fold_left live_step es l = l.
Proof.
  induction es as [|e es IH]; intros H; simpl in *; [reflexivity |].
  apply andb_true_iff in H as [He H]. destruct e; try discriminate; auto.
Qed.

Lemma quiet_torn (es : list effect) (t : teardown) :
  forallb quiet es = true -> fold_left torn_step es t = t.
Proof.
  induction es as [|e es IH]; intros H; simpl in *; [reflexivity |].
  apply andb_true_iff in H as [He H]. destruct e; try discriminate; auto.
Qed.

Lemma quiet_phase (ticks : Z) (es : list effect) (p : retry_phase) :
  forallb quiet es = true -> fold_left (phase_step ticks) es p = p.
Proof.
  induction es as [|e es IH]; intros H; simpl in *; [reflexivity |].
  apply andb_true_iff in H as [He H]. destruct e; try discriminate; auto.
Qed.

Lemma inv_sip_step (cfg : sdkconfig) (s : system) (tr : list effect)
    (pc : sip_loc) (r : bool) (io : option SipClientEvent) :
  Inv cfg s tr -> sip_pc s = Some pc ->
  Inv cfg (apply_effects cfg (fst (sip_task cfg pc s r io))
             (with_sip_pc (Some (snd (sip_task cfg pc s r io))) s))
      (tr ++ fst (sip_task cfg pc s r io)).
Proof.
  intros [Hm Hr Hw Ht He Hl Hi Hn Hp] Hpc.
  unfold created in Hm. rewrite Hpc in Hm, Hp.
  destruct pc.
  - (* L_wait *)
    simpl.
    destruct (link_ready s) eqn:Eready; simpl.
    + constructor; scan_snoc; simpl; try assumption; try discriminate.
      destruct (phase (retry_ticks cfg) tr); simpl in *;
        try discriminate; try contradiction; congruence.
    + rewrite app_nil_r.
      constructor; simpl; try assumption; try discriminate.
  - (* L_check *)
    simpl.
    constructor; scan_snoc; simpl; try assumption; try discriminate.
    + destruct (is_initialized (client s)); [discriminate | reflexivity].
    + destruct (phase (retry_ticks cfg) tr); simpl in *;
        try discriminate; try contradiction;
        destruct (is_initialized (client s)); discriminate.
  - (* L_init *)
    simpl.
    specialize (Hi Hpc). rewrite Hi in Hl.
    constructor; scan_snoc; simpl; try assumption; try discriminate.
    + rewrite Hl. unfold is_initialized in *; simpl.
      destruct r; simpl; [reflexivity | rewrite Hi; reflexivity].
    + destruct r; discriminate.
    + destruct (phase (retry_ticks cfg) tr); simpl in *;
        try discriminate; try contradiction; destruct r; reflexivity.
  - (* L_delay *)
    simpl.
    constructor; scan_snoc; simpl; try assumption; try discriminate.
    fold (retry_ticks cfg).
    destruct (phase (retry_ticks cfg) tr); simpl in *;
      try discriminate; try contradiction; try congruence.
    rewrite Z.eqb_refl. reflexivity.
  - (* L_set_handler *)
    simpl.
    constructor; scan_snoc; simpl; try assumption; try discriminate.
    destruct (phase (retry_ticks cfg) tr); simpl in *;
      try discriminate; try contradiction; congruence.
  - (* L_run *)
    assert (Eph : phase (retry_ticks cfg) tr = ph_free).
    { destruct (phase (retry_ticks cfg) tr); simpl in Hp;
        try reflexivity; try contradiction; discriminate. }
    assert (Hquiet : forall es, forallb quiet es = true ->
               forall pc', pc' = L_run \/ pc' = L_wait ->
               Inv cfg (apply_effects cfg es (with_sip_pc (Some pc') s)) (tr ++ es)).
    { intros es Hes pc' Hpc'.
      rewrite (quiet_apply cfg es _ Hes).
      constructor;
        rewrite ?lifecycle_app, ?torn_app, ?phase_app,
                ?(quiet_lifecycle es _ Hes), ?(quiet_torn es _ Hes),
                ?(quiet_phase (retry_ticks cfg) es _ Hes); simpl;
        try assumption; try discriminate.
      - destruct Hpc' as [-> | ->]; discriminate.
      - rewrite Eph; simpl. destruct Hpc' as [-> | ->]; discriminate. }
    unfold sip_task. destruct io as [ev|]; cbn [fst snd].
    + apply Hquiet; [| left; reflexivity].
      destruct (has_event_handler (client s)); [| reflexivity].
      unfold event_router. destruct (event ev); try reflexivity.
      simpl. destruct (Ascii.eqb _ _); reflexivity.
    + apply Hquiet; [reflexivity | right; reflexivity].
Qed.

Lemma inv_step (cfg : sdkconfig) (s : system) (tr : list effect) (c : choice) :
  Inv cfg s tr -> Inv cfg (fst (step cfg c s)) (tr ++ snd (step cfg c s)).
Proof.
  intros HI. unfold step.
  destruct (halted s); [simpl; rewrite app_nil_r; exact HI |].
  destruct c as [|b id data| |r io].
  - destruct (main_pending s) as [|e rest] eqn:E; simpl.
    + rewrite app_nil_r; exact HI.
    + apply inv_main_step; assumption.
  - destruct (evt_pending s) as [|e rest] eqn:E; simpl.
    + destruct (wifi_started s); simpl.
      * apply inv_deliver_step; assumption.
      * rewrite app_nil_r; exact HI.
    + rewrite app_nil_r; exact HI.
  - destruct (evt_pending s) as [|e rest] eqn:E; simpl.
    + rewrite app_nil_r; exact HI.
    + apply inv_evt_step; assumption.
  - destruct (sip_pc s) as [pc|] eqn:E; simpl.
    + pose proof (inv_sip_step cfg s tr pc r io HI E) as H.
      destruct (sip_task cfg pc s r io) as [es pc']; simpl in *. exact H.
    + rewrite app_nil_r; exact HI.
Qed.

Lemma inv_run (cfg : sdkconfig) (sched : list choice) :
  Inv cfg (fst (run cfg sched (boot cfg))) (snd (run cfg sched (boot cfg))).
Proof.
  apply run_invariant; [apply inv_boot | intros; apply inv_step; assumption].
Qed.

(** The invariant bounds what a step from a reachable state can call. *)
Lemma init_only_by_sip_task (cfg : sdkconfig) (s : system) (tr : list effect)
    (c : choice) (r : bool) :
  Inv cfg s tr -> In (client_init r) (snd (step cfg c s)) ->
  sip_pc s = Some L_init.
Proof.
  intros [Hm Hr Hw Ht He Hl Hi Hn Hp]. unfold step.
  destruct (halted s); [intros []|].
  destruct c as [|b id data| |r' io].
  - destruct (main_pending s) as [|e rest]; simpl; [intros [] |].
    intros [-> | []]. simpl in Hm. discriminate.
  - destruct (evt_pending s); [destruct (wifi_started s) |]; simpl;
      [intros [H | []]; discriminate | intros [] | intros []].
  - destruct (evt_pending s) as [|e rest]; simpl; [intros [] |].
    intros [-> | []]. simpl in He. discriminate.
  - destruct (sip_pc s) as [pc|]; [| intros []].
    destruct pc; simpl in *; intros Hin; try reflexivity.
    + destruct (link_ready s); simpl in Hin; [destruct Hin as [H | []] | destruct Hin];
        discriminate.
    + destruct Hin as [H | []]; discriminate.
    + destruct Hin as [H | [H | []]]; discriminate.
    + destruct Hin as [H | []]; discriminate.
    + destruct io as [ev|]; simpl in Hin.
      * destruct (has_event_handler (client s)); [| destruct Hin].
        unfold event_router in Hin. destruct (event ev); simpl in Hin;
          try (destruct (Ascii.eqb _ _); simpl in Hin);
          repeat (destruct Hin as [Hin | Hin]; try discriminate); destruct Hin.
      * destruct Hin as [H | []]; discriminate.
Qed.

(* ===================================================================== *)
(** ** From the readings of a trace to its shape *)
(* ===================================================================== *)

Lemma live_double_absorbs (l : list effect) :
  fold_left live_step l double_init = double_init.
Proof.
  induction l as [|e l IH]; simpl; [reflexivity |].
  destruct e; simpl; exact IH.
Qed.

Lemma live_then_init (mid post : list effect) (r : bool) :
  fold_left live_step (mid ++ client_init r :: post) live <> double_init ->
  In client_deinit mid.
Proof.
  induction mid as [|e mid IH]; simpl; intros H.
  - rewrite live_double_absorbs in H. congruence.
  - destruct e; simpl in H; try (right; apply IH; exact H).
    + left; reflexivity.
    + rewrite live_double_absorbs in H. congruence.
Qed.

Lemma no_init_on_live (p1 mid post : list effect) (r : bool) :
  lifecycle (p1 ++ client_init true :: mid ++ client_init r :: post) <> double_init ->
  In client_deinit mid.
Proof.
  rewrite lifecycle_app. simpl. intros H.
  destruct (lifecycle p1); simpl in H.
  - apply live_then_init in H. exact H.
  - rewrite live_double_absorbs in H. congruence.
  - rewrite live_double_absorbs in H. congruence.
Qed.

Lemma init_needs_not_live (pre post : list effect) (r : bool) :
  lifecycle (pre ++ client_init r :: post) <> double_init ->
  lifecycle pre = not_live.
Proof.
  rewrite lifecycle_app. simpl. intros H.
  destruct (lifecycle pre); simpl in H; try reflexivity;
    rewrite live_double_absorbs in H; congruence.
Qed.

Lemma torn_violated_absorbs (l : list effect) :
  fold_left torn_step l td_violated = td_violated.
Proof.
  induction l as [|e l IH]; simpl; [reflexivity |].
  destruct e; simpl; exact IH.
Qed.

Lemma torn_done_split (pre : list effect) :
  torn_since_notified pre = td_done ->
  exists p1 p2, pre = p1 ++ client_deinit :: p2
                /\ forall b id, ~ In (notified b id) p2.
Proof.
  induction pre as [|e pre IH] using rev_ind; [discriminate |].
  rewrite torn_app; simpl. intros H.
  assert (Hkeep : torn_since_notified pre = td_done ->
                  (forall b id, e <> notified b id) ->
                  exists p1 p2, pre ++ [e] = p1 ++ client_deinit :: p2
                                /\ forall b id, ~ In (notified b id) p2).
  { intros Hd Hne. destruct (IH Hd) as (p1 & p2 & -> & Hno).
    exists p1, (p2 ++ [e]). split; [rewrite <- app_assoc; reflexivity |].
    intros b id Hin. apply in_app_or in Hin as [Hin | [Hin | []]].
    - exact (Hno b id Hin).
    - exact (Hne b id Hin). }
  destruct e; simpl in H;
    try (apply Hkeep; [exact H | discriminate]).
  - exists pre, []. split; [reflexivity | intros b id []].
  - destruct (torn_since_notified pre); try discriminate.
    apply Hkeep; [reflexivity | discriminate].
  - destruct (torn_since_notified pre); discriminate.
Qed.

Lemma clear_needs_teardown (pre post : list effect) (b : Z) :
  torn_since_notified (pre ++ xEventGroupClearBits b :: post) <> td_violated ->
  torn_since_notified pre = td_done.
Proof.
  rewrite torn_app. simpl. intros H.
  destruct (torn_since_notified pre); simpl in H; try reflexivity;
    rewrite torn_violated_absorbs in H; congruence.
Qed.

Lemma phase_broken_absorbs (ticks : Z) (l : list effect) :
  fold_left (phase_step ticks) l ph_broken = ph_broken.
Proof.
  induction l as [|e l IH]; simpl; [reflexivity |].
  destruct e; simpl; exact IH.
Qed.

Lemma wait_due_then_init (ticks : Z) (mid post : list effect) (r : bool) :
  fold_left (phase_step ticks) (mid ++ client_init r :: post) ph_wait_due <> ph_broken ->
  exists m2 m3, mid = m2 ++ xEventGroupWaitBits CONNECTED_BIT :: m3.
Proof.
  induction mid as [|e mid IH]; simpl; intros H.
  - rewrite phase_broken_absorbs in H. congruence.
  - assert (Hskip : fold_left (phase_step ticks) (mid ++ client_init r :: post)
                      ph_wait_due <> ph_broken ->
                    exists m2 m3, e :: mid = m2 ++ xEventGroupWaitBits CONNECTED_BIT :: m3).
    { intros H'. destruct (IH H') as (m2 & m3 & ->). exists (e :: m2), m3. reflexivity. }
    destruct e; simpl in H; try (apply Hskip; exact H).
    + destruct (Z.eqb_spec bits CONNECTED_BIT) as [-> | Hne].
      * exists [], mid. reflexivity.
      * rewrite phase_broken_absorbs in H. congruence.
    + rewrite phase_broken_absorbs in H. congruence.
    + rewrite phase_broken_absorbs in H. congruence.
Qed.

Lemma delay_due_then_init (ticks : Z) (mid post : list effect) (r : bool) :
  fold_left (phase_step ticks) (mid ++ client_init r :: post) ph_delay_due <> ph_broken ->
  exists m1 m2 m3,
    mid = m1 ++ vTaskDelay ticks :: m2 ++ xEventGroupWaitBits CONNECTED_BIT :: m3.
Proof.
  induction mid as [|e mid IH]; simpl; intros H.
  - rewrite phase_broken_absorbs in H. congruence.
  - assert (Hskip : fold_left (phase_step ticks) (mid ++ client_init r :: post)
                      ph_delay_due <> ph_broken ->
                    exists m1 m2 m3,
                      e :: mid = m1 ++ vTaskDelay ticks :: m2
                                 ++ xEventGroupWaitBits CONNECTED_BIT :: m3).
    { intros H'. destruct (IH H') as (m1 & m2 & m3 & ->).
      exists (e :: m1), m2, m3. reflexivity. }
    destruct e; simpl in H; try (apply Hskip; exact H).
    + rewrite phase_broken_absorbs in H. congruence.
    + destruct (Z.eqb_spec ticks0 ticks) as [-> | Hne].
      * apply wait_due_then_init in H. destruct H as (m2 & m3 & ->).
        exists [], m2, m3. reflexivity.
      * rewrite phase_broken_absorbs in H. congruence.
    + rewrite phase_broken_absorbs in H. congruence.
Qed.

Lemma retry_shape (ticks : Z) (p1 mid post : list effect) (r : bool) :
  phase ticks (p1 ++ client_init false :: mid ++ client_init r :: post) <> ph_broken ->
  exists m1 m2 m3,
    mid = m1 ++ vTaskDelay ticks :: m2 ++ xEventGroupWaitBits CONNECTED_BIT :: m3.
Proof.
  rewrite phase_app. simpl. intros H.
  destruct (phase ticks p1); simpl in H;
    try (rewrite phase_broken_absorbs in H; congruence).
  apply delay_due_then_init in H. exact H.
Qed.

Lemma install_needs_due (ticks : Z) (pre post : list effect) :
  phase ticks (pre ++ client_set_event_handler :: post) <> ph_broken ->
  phase ticks pre = ph_install_due.
Proof.
  rewrite phase_app. simpl. intros H.
  destruct (phase ticks pre); simpl in H; try reflexivity;
    rewrite phase_broken_absorbs in H; congruence.
Qed.

Lemma install_due_split (ticks : Z) (pre : list effect) :
  phase ticks pre = ph_install_due ->
  exists p1 p2, pre = p1 ++ client_init true :: p2
                /\ (forall r, ~ In (client_init r) p2)
                /\ ~ In client_set_event_handler p2.
Proof.
  induction pre as [|e pre IH] using rev_ind; [discriminate |].
  rewrite phase_app; simpl. intros H.
  assert (Hkeep : phase ticks pre = ph_install_due ->
                  (forall r, e <> client_init r) -> e <> client_set_event_handler ->
                  exists p1 p2, pre ++ [e] = p1 ++ client_init true :: p2
                                /\ (forall r, ~ In (client_init r) p2)
                                /\ ~ In client_set_event_handler p2).
  { intros Hd Hne1 Hne2. destruct (IH Hd) as (p1 & p2 & -> & Hno1 & Hno2).
    exists p1, (p2 ++ [e]). split; [rewrite <- app_assoc; reflexivity |]. split.
    - intros r Hin. apply in_app_or in Hin as [Hin | [Hin | []]].
      + exact (Hno1 r Hin).
      + exact (Hne1 r Hin).
    - intros Hin. apply in_app_or in Hin as [Hin | [Hin | []]].
      + exact (Hno2 Hin).
      + exact (Hne2 Hin). }
  destruct e; simpl in H;
    try (apply Hkeep; [exact H | discriminate | discriminate]).
  - destruct (phase ticks pre); try discriminate.
    + destruct (bits =? CONNECTED_BIT); discriminate.
    + apply Hkeep; [reflexivity | discriminate | discriminate].
  - destruct (phase ticks pre); try discriminate.
    destruct result; [| discriminate].
    exists pre, []. split; [reflexivity |]. split; [intros r [] | intros []].
  - destruct (phase ticks pre); try discriminate.
    + destruct (ticks0 =? ticks); discriminate.
    + apply Hkeep; [reflexivity | discriminate | discriminate].
  - destruct (phase ticks pre); discriminate.
Qed.

Lemma final_after_creation (reg : list registration) (started : bool) (l : list effect) :
  main_wf true l = true ->
  final_registry reg l = reg /\ final_started started l = started.
Proof.
  unfold final_registry, final_started.
  induction l as [|e l IH]; simpl; intros H; [split; reflexivity |].
  destruct e; simpl in H; try discriminate; auto.
Qed.

(** Once [sip_task] exists the handler is registered with the client and
    the wireless stack is started. *)
Lemma registered_once_created (cfg : sdkconfig) (s : system) (tr : list effect) :
  Inv cfg s tr -> created s = true ->
  registry s = client_registry /\ wifi_started s = true.
Proof.
  intros [Hm Hr Hw Ht He Hl Hi Hn Hp] Hc. rewrite Hc in Hm.
  destruct (final_after_creation (registry s) (wifi_started s) _ Hm) as [E1 E2].
  rewrite E1 in Hr. rewrite E2 in Hw. split; assumption.
Qed.

(* ===================================================================== *)
(** ** A link loss before the client is registered *)
(* ===================================================================== *)

Lemma apply_effect_pending (cfg : sdkconfig) (e : effect) (s : system) :
  main_pending (apply_effect cfg e s) = main_pending s
  /\ evt_pending (apply_effect cfg e s) = evt_pending s.
Proof. destruct e; split; reflexivity. Qed.

Lemma apply_effects_pending (cfg : sdkconfig) (es : list effect) (s : system) :
  main_pending (apply_effects cfg es s) = main_pending s
  /\ evt_pending (apply_effects cfg es s) = evt_pending s.
Proof.
  unfold apply_effects. revert s.
  induction es as [|e es IH]; intros s; simpl; [split; reflexivity |].
  destruct (IH (apply_effect cfg e s)) as [E1 E2].
  destruct (apply_effect_pending cfg e s) as [F1 F2].
  split; congruence.
Qed.

(** No move of [sip_task] makes one of the three calls. *)
Lemma sip_task_never_answers (cfg : sdkconfig) (pc : sip_loc) (s : system)
    (r : bool) (io : option SipClientEvent) :
  filter answers_disconnect (fst (sip_task cfg pc s r io)) = [].
Proof.
  destruct pc; simpl; try reflexivity.
  - destruct (link_ready s); reflexivity.
  - destruct io as [ev|]; [| reflexivity].
    destruct (has_event_handler (client s)); [| reflexivity].
    unfold event_router. destruct (event ev); try reflexivity.
    simpl. destruct (Ascii.eqb _ _); reflexivity.
Qed.

(** A firmware that was aborted makes no further call. *)
Lemma run_halted (cfg : sdkconfig) (sched : list choice) (s : system) :
  halted s = true -> run cfg sched s = (s, []).
Proof.
  intros H. induction sched as [|c sched IH] using rev_ind; [reflexivity |].
  rewrite run_snoc, IH. simpl. unfold step. rewrite H. reflexivity.
Qed.

(** While the abort on the null client is all the event loop has to do,
    and start-up has none of the three calls left, no step makes one. *)
Lemma null_abort_step (cfg : sdkconfig) (s : system) (tr : list effect) (c : choice) :
  null_abort_owed s
  /\ filter answers_disconnect (main_pending s) = []
  /\ filter answers_disconnect tr = [] ->
  null_abort_owed (fst (step cfg c s))
  /\ filter answers_disconnect (main_pending (fst (step cfg c s))) = []
  /\ filter answers_disconnect (tr ++ snd (step cfg c s)) = [].
Proof.
  intros (K & Hm & Ht). rewrite filter_app, Ht. simpl.
  unfold step. destruct (halted s) eqn:Hh; [auto |].
  pose proof K as K0. destruct K as [K | K]; [congruence |].
  unfold null_abort_owed.
  destruct c as [|b id data| |r io].
  - destruct (main_pending s) as [|e rest] eqn:Em; [simpl; rewrite Em; auto |].
    simpl in Hm. destruct (answers_disconnect e) eqn:Ee; [discriminate |].
    destruct (apply_effect_pending cfg e (with_main_pending rest s)) as [E1 E2].
    simpl. rewrite E1, Ee. repeat split; auto.
    right. rewrite E2. exact K.
  - rewrite K. simpl. auto.
  - rewrite K. simpl. repeat split; auto.
  - destruct (sip_pc s) as [pc|]; [| simpl; auto].
    pose proof (sip_task_never_answers cfg pc s r io) as Hs.
    destruct (sip_task cfg pc s r io) as [es pc']. simpl in Hs. simpl.
    destruct (apply_effects_pending cfg es (with_sip_pc (Some pc') s)) as [E1 E2].
    rewrite E1. repeat split; auto.
    right. rewrite E2. exact K.
Qed.

(** C2, on the code: [initialize_wifi] registers the handler with a null
    argument and starts the wireless stack, so a link-disconnected
    notification can arrive while the wireless stack is started, the event
    loop is idle and the firmware runs, with [app_main] still to register
    the client.  The handler then makes none of the three calls: called
    with the null argument its only step is the access through the null
    pointer at [deinit()].  However the three contexts go on after the
    notification was taken, the trace holds the notification and no
    [deinit()], no [esp_wifi_connect()] and no [xEventGroupClearBits]; the
    event loop has the abort alone to run, and once it moved the firmware
    is aborted. *)
Theorem C2_disconnected_on_null_registration :
  forall (cfg : sdkconfig) (data : pointer),
    let lost := deliver WIFI_EVENT WIFI_EVENT_STA_DISCONNECTED data in
    let s_started := fst (run cfg (repeat run_main 14) (boot cfg)) in
    (wifi_started s_started = true
     /\ halted s_started = false
     /\ evt_pending s_started = [])
    /\ calls (event_handler cfg NULL WIFI_EVENT WIFI_EVENT_STA_DISCONNECTED data)
       = [panic null_client]
    /\ step cfg lost s_started
       = (with_evt_pending [panic null_client] s_started,
          [notified WIFI_EVENT WIFI_EVENT_STA_DISCONNECTED])
    /\ forall rest : list choice,
         let final := run cfg (repeat run_main 14 ++ lost :: rest) (boot cfg) in
         In (notified WIFI_EVENT WIFI_EVENT_STA_DISCONNECTED) (snd final)
         /\ filter answers_disconnect (snd final) = []
         /\ null_abort_owed (fst final)
         /\ (In run_event_loop rest -> halted (fst final) = true).
Proof.
  intros cfg data lost s_started.
  split; [repeat split; reflexivity |].
  split; [reflexivity |].
  assert (Hstep : step cfg lost s_started
                  = (with_evt_pending [panic null_client] s_started,
                     [notified WIFI_EVENT WIFI_EVENT_STA_DISCONNECTED]))
    by reflexivity.
  split; [exact Hstep |].
  intros rest final.
  set (s1 := with_evt_pending [panic null_client] s_started).
  assert (Hpre : run cfg (repeat run_main 14 ++ [lost]) (boot cfg)
                 = (s1, snd (run cfg (repeat run_main 14) (boot cfg))
                        ++ [notified WIFI_EVENT WIFI_EVENT_STA_DISCONNECTED])).
  { rewrite run_snoc. fold s_started. rewrite Hstep. reflexivity. }
  assert (Hfinal : final = (fst (run cfg rest s1),
                            (snd (run cfg (repeat run_main 14) (boot cfg))
                             ++ [notified WIFI_EVENT WIFI_EVENT_STA_DISCONNECTED])
                            ++ snd (run cfg rest s1))).
  { unfold final.
    change (repeat run_main 14 ++ lost :: rest)
      with (repeat run_main 14 ++ [lost] ++ rest).
    rewrite app_assoc, run_app, Hpre. reflexivity. }
  assert (Hall : forall sched,
            null_abort_owed (fst (run cfg sched s1))
            /\ filter answers_disconnect (main_pending (fst (run cfg sched s1))) = []
            /\ filter answers_disconnect (snd (run cfg sched s1)) = []).
  { apply (run_invariant cfg
             (fun s tr => null_abort_owed s
                          /\ filter answers_disconnect (main_pending s) = []
                          /\ filter answers_disconnect tr = [])).
    - split; [right; reflexivity | split; reflexivity].
    - intros s tr c H. apply null_abort_step. exact H. }
  rewrite Hfinal. cbn [fst snd].
  destruct (Hall rest) as (K & _ & Ht).
  split; [| split; [| split]].
  - apply in_or_app. left. apply in_or_app. right. left. reflexivity.
  - rewrite filter_app, Ht, app_nil_r. reflexivity.
  - exact K.
  - intros Hin. apply in_split in Hin as (a & b & ->).
    rewrite run_app. cbn [fst].
    destruct (Hall a) as (Ka & _ & _).
    set (sa := fst (run cfg a s1)) in *.
    change (run_event_loop :: b) with ([run_event_loop] ++ b).
    rewrite run_app, run_one. cbn [fst].
    assert (Hh : halted (fst (step cfg run_event_loop sa)) = true).
    { unfold step. destruct (halted sa) eqn:Hs; [exact Hs |].
      destruct Ka as [Ka | Ka]; [congruence |].
      rewrite Ka. reflexivity. }
    rewrite (run_halted cfg b _ Hh). exact Hh.
Qed.

(* ===================================================================== *)
(** ** The lifecycle of the handle *)
(* ===================================================================== *)

(** C1. In every run of the system from start-up, whatever the
    notifications and however the contexts interleave: a step that calls
    [init()] starts from a state in which the handle is not initialized;
    between a successful [init()] and any later [init()] there is a
    [deinit()]; and whenever the readiness bit is cleared, [deinit()] was
    called before it in the same run of the handler (since the event loop
    took the notification). *)
Theorem C1_no_init_on_live_handle :
  forall (cfg : sdkconfig) (sched : list choice),
    let s := fst (run cfg sched (boot cfg)) in
    let tr := snd (run cfg sched (boot cfg)) in
    (forall c r, In (client_init r) (snd (step cfg c s)) ->
                 is_initialized (client s) = false)
    /\ (forall pre r post, tr = pre ++ client_init r :: post ->
                           lifecycle pre = not_live)
    /\ (forall p1 mid r post,
          tr = p1 ++ client_init true :: mid ++ client_init r :: post ->
          In client_deinit mid)
    /\ (forall pre b post,
          tr = pre ++ xEventGroupClearBits b :: post ->
          exists p1 p2, pre = p1 ++ client_deinit :: p2
                        /\ forall b' id, ~ In (notified b' id) p2).
Proof.
  intros cfg sched s tr.
  pose proof (inv_run cfg sched) as HI. fold s tr in HI.
  assert (Hlive : lifecycle tr <> double_init).
  { rewrite (inv_live _ _ _ HI). destruct (is_initialized (client s)); discriminate. }
  split; [| split; [| split]].
  - intros c r Hin. apply (inv_init _ _ _ HI).
    exact (init_only_by_sip_task cfg s tr c r HI Hin).
  - intros pre r post E. rewrite E in Hlive.
    exact (init_needs_not_live _ _ _ Hlive).
  - intros p1 mid r post E. rewrite E in Hlive.
    exact (no_init_on_live _ _ _ _ Hlive).
  - intros pre b post E. pose proof (inv_torn _ _ _ HI) as Htorn.
    rewrite E in Htorn. apply torn_done_split.
    exact (clear_needs_teardown _ _ _ Htorn).
Qed.

(* ===================================================================== *)
(** ** Retrying after a failed init *)
(* ===================================================================== *)

Lemma one_failed_pass (cfg : sdkconfig) (s : system) (io : option SipClientEvent) :
  halted s = false -> sip_pc s = Some L_wait -> link_ready s = true ->
  is_initialized (client s) = false ->
  run cfg (failing_pass io) s = (s, failed_attempt cfg).
Proof.
  destruct s as [cl g reg ws mp ep pc h]. destruct cl as [ss sv my hh].
  unfold is_initialized; cbn -[link_ready].
  intros -> -> Hready Hss. destruct ss; [| discriminate].
  unfold failing_pass, run, exec, step; cbn -[link_ready].
  rewrite Hready; cbn -[link_ready].
  reflexivity.
Qed.

Lemma failed_passes (cfg : sdkconfig) (s : system) (io : option SipClientEvent) (N : nat) :
  halted s = false -> sip_pc s = Some L_wait -> link_ready s = true ->
  is_initialized (client s) = false ->
  run cfg (List.concat (repeat (failing_pass io) N)) s
  = (s, List.concat (repeat (failed_attempt cfg) N)).
Proof.
  intros H1 H2 H3 H4. induction N as [|N IH]; [reflexivity |].
  cbn [List.concat repeat].
  rewrite run_app, (one_failed_pass cfg s io H1 H2 H3 H4). cbn [fst snd].
  rewrite IH. reflexivity.
Qed.

Lemma count_failed_attempts (cfg : sdkconfig) (N : nat) :
  count is_client_init (List.concat (repeat (failed_attempt cfg) N)) = N.
Proof.
  unfold count. induction N as [|N IH]; simpl; [reflexivity |].
  rewrite IH. reflexivity.
Qed.

Lemma retry_delay_at_least_2000_ms (cfg : sdkconfig) :
  1 <= configTICK_RATE_HZ cfg <= 1000 ->
  2000 * configTICK_RATE_HZ cfg <= retry_ticks cfg * 1000.
Proof.
  unfold retry_ticks, portTICK_RATE_MS, portTICK_PERIOD_MS.
  set (hz := configTICK_RATE_HZ cfg). intros [Hlo Hhi].
  assert (Hp : 1 <= 1000 / hz) by (apply Z.div_le_lower_bound; lia).
  assert (Hmul : hz * (1000 / hz) <= 1000) by (apply Z.mul_div_le; lia).
  assert (Ht : 2 * hz <= 2000 / (1000 / hz)).
  { apply Z.div_le_lower_bound; [lia | nia]. }
  lia.
Qed.

(** C3. With the readiness bit set, the handle not initialized and
    [sip_task] at its wait, N passes in which [init()] fails make exactly N
    [init()] calls, each followed by one [vTaskDelay] of the retry delay, and
    bring the loop back to the state it started from, at the wait; the
    callback is not installed in them.  The delay handed to [vTaskDelay]
    lasts at least 2000 ms of tick periods.  In every run from start-up,
    between a failed [init()] and the next [init()] there are the delay and
    then the return of the wait on the readiness bit, and the callback is
    installed only after an [init()] that returned success, with no other
    [init()] and no other installation in between. *)
Theorem C3_failed_inits_retry_after_delay :
  forall (cfg : sdkconfig) (s : system) (io : option SipClientEvent) (N : nat)
         (sched : list choice),
    halted s = false -> sip_pc s = Some L_wait -> link_ready s = true ->
    is_initialized (client s) = false ->
    1 <= configTICK_RATE_HZ cfg <= 1000 ->
    let passes := List.concat (repeat (failing_pass io) N) in
    let tr := snd (run cfg sched (boot cfg)) in
    run cfg passes s = (s, List.concat (repeat (failed_attempt cfg) N))
    /\ count is_client_init (snd (run cfg passes s)) = N
    /\ count is_set_event_handler (snd (run cfg passes s)) = 0%nat
    /\ 2000 * configTICK_RATE_HZ cfg <= retry_ticks cfg * 1000
    /\ (forall p1 mid r post,
          tr = p1 ++ client_init false :: mid ++ client_init r :: post ->
          exists m1 m2 m3,
            mid = m1 ++ vTaskDelay (retry_ticks cfg) :: m2
                  ++ xEventGroupWaitBits CONNECTED_BIT :: m3)
    /\ (forall pre post,
          tr = pre ++ client_set_event_handler :: post ->
          exists p1 p2, pre = p1 ++ client_init true :: p2
                        /\ (forall r, ~ In (client_init r) p2)
                        /\ ~ In client_set_event_handler p2).
Proof.
  intros cfg s io N sched H1 H2 H3 H4 Hhz passes tr.
  pose proof (failed_passes cfg s io N H1 H2 H3 H4) as Hrun. fold passes in Hrun.
  pose proof (inv_run cfg sched) as HI. fold tr in HI.
  assert (Hph : phase (retry_ticks cfg) tr <> ph_broken).
  { pose proof (inv_phase _ _ _ HI) as Hp.
    destruct (phase (retry_ticks cfg) tr); simpl in Hp;
      try discriminate; contradiction. }
  split; [exact Hrun |]. rewrite Hrun; cbn [snd].
  split; [apply count_failed_attempts |].
  split.
  { unfold count. clear. induction N as [|N IH]; [reflexivity | exact IH]. }
  split; [apply retry_delay_at_least_2000_ms; exact Hhz |].
  split.
  - intros p1 mid r post E. rewrite E in Hph. exact (retry_shape _ _ _ _ _ Hph).
  - intros pre post E. rewrite E in Hph.
    exact (install_due_split _ _ (install_needs_due _ _ _ Hph)).
Qed.

Lemma C3_three_failures_witness :
  (halted s_link_up = false /\ sip_pc s_link_up = Some L_wait
   /\ link_ready s_link_up = true /\ is_initialized (client s_link_up) = false
   /\ 1 <= configTICK_RATE_HZ cfg_one_key <= 1000)
  /\ count is_client_init
       (snd (run cfg_one_key (List.concat (repeat (failing_pass None) 3)) s_link_up))
     = 3%nat
  /\ retry_ticks cfg_one_key = 200.
Proof.
  split; [repeat split; try reflexivity; discriminate |].
  split; [| reflexivity].
  refine (proj1 (proj2
    (C3_failed_inits_retry_after_delay cfg_one_key s_link_up None 3 []
       eq_refl eq_refl eq_refl eq_refl _))).
  split; discriminate.
Defined.

(* ===================================================================== *)
(** ** Blocking on the readiness bit *)
(* ===================================================================== *)

Lemma link_ready_bit0 (s : system) :
  link_ready s = Z.testbit (wifi_event_group s) 0.
Proof.
  unfold link_ready, CONNECTED_BIT, BIT0.
  change 1 with (Z.ones 1) at 1. rewrite Z.land_ones by lia.
  rewrite Z.bit0_odd. change (2 ^ 1) with 2. rewrite Zmod_odd.
  destruct (Z.odd (wifi_event_group s)); reflexivity.
Qed.

Lemma clear_keeps_not_ready (cfg : sdkconfig) (s : system) (bits : Z) :
  link_ready s = false ->
  link_ready (apply_effect cfg (xEventGroupClearBits bits) s) = false.
Proof.
  rewrite !link_ready_bit0. cbn [apply_effect with_bits wifi_event_group]. intros H.
  rewrite Z.ldiff_spec, H. reflexivity.
Qed.

Lemma app_eq_split {A : Type} (l1 l2 pre post : list A) (x : A) :
  l1 ++ l2 = pre ++ x :: post ->
  (exists post', l1 = pre ++ x :: post')
  \/ (exists m1, pre = l1 ++ m1 /\ l2 = m1 ++ x :: post).
Proof.
  revert pre. induction l1 as [|a l1 IH]; intros pre E; simpl in E.
  - right. exists pre. split; [reflexivity | exact E].
  - destruct pre as [|p pre]; simpl in E; injection E as -> E.
    + left. exists l1. reflexivity.
    + destruct (IH pre E) as [(post' & ->) | (m1 & -> & ->)].
      * left. exists post'. reflexivity.
      * right. exists m1. split; reflexivity.
Qed.

(** While [sip_task] waits on a clear readiness bit, a step that does not
    set the bit leaves it waiting on a clear bit. *)
Lemma blocked_step (cfg : sdkconfig) (s : system) (tr : list effect) (c : choice) :
  Inv cfg s tr -> sip_pc s = Some L_wait -> link_ready s = false ->
  existsb is_set_bits (snd (step cfg c s)) = false ->
  sip_pc (fst (step cfg c s)) = Some L_wait
  /\ link_ready (fst (step cfg c s)) = false.
Proof.
  intros [Hm Hr Hw Ht He Hl Hi Hn Hp] Hpc Hready. unfold step.
  destruct (halted s); [intros _; split; assumption |].
  destruct c as [|b id data| |r io].
  - unfold created in Hm. rewrite Hpc in Hm.
    destruct (main_pending s) as [|e rest]; [intros _; split; assumption |].
    simpl in Hm. intros _.
    destruct e; try discriminate; simpl; split; assumption.
  - destruct (evt_pending s); [destruct (wifi_started s) |];
      intros _; split; assumption.
  - destruct (evt_pending s) as [|e rest]; [intros _; split; assumption |].
    simpl in He.
    destruct e; try discriminate; cbn [snd fst existsb is_set_bits orb];
      intros Hset; try discriminate;
      try (split; [exact Hpc | exact Hready]).
    split; [exact Hpc |].
    apply (clear_keeps_not_ready cfg (with_evt_pending rest s)). exact Hready.
  - rewrite Hpc. cbn -[link_ready]. rewrite Hready. intros _.
    cbn -[link_ready]. split; [reflexivity | exact Hready].
Qed.

(** From a state in which [sip_task] waits on a clear readiness bit, no
    [init()] is called before the bit is set. *)
Lemma blocked_until_set (cfg : sdkconfig) (s : system) (tr0 : list effect) :
  Inv cfg s tr0 -> sip_pc s = Some L_wait -> link_ready s = false ->
  forall sched pre r post,
    snd (run cfg sched s) = pre ++ client_init r :: post ->
    exists b, In (xEventGroupSetBits b) pre.
Proof.
  intros HI Hpc Hready sched.
  pose (I := fun (s' : system) (tr' : list effect) =>
    Inv cfg s' (tr0 ++ tr')
    /\ (existsb is_set_bits tr' = false ->
        sip_pc s' = Some L_wait /\ link_ready s' = false)
    /\ (forall pre r post, tr' = pre ++ client_init r :: post ->
        exists b, In (xEventGroupSetBits b) pre)).
  assert (HIrun : I (fst (run cfg sched s)) (snd (run cfg sched s))).
  { apply run_invariant; unfold I.
    - rewrite app_nil_r. split; [exact HI | split].
      + intros _. split; assumption.
      + intros [|? ?] r post E; discriminate E.
    - intros s' tr' c (HI' & Hblk & Hpre). split; [| split].
      + rewrite app_assoc. apply inv_step. exact HI'.
      + rewrite existsb_app. intros H. apply orb_false_iff in H as [H1 H2].
        destruct (Hblk H1) as [Hpc' Hready'].
        exact (blocked_step cfg s' _ c HI' Hpc' Hready' H2).
      + intros pre r post E.
        apply app_eq_split in E as [(post' & E) | (m1 & -> & E)].
        * exact (Hpre pre r post' E).
        * assert (Hin : In (client_init r) (snd (step cfg c s')))
            by (rewrite E; apply in_or_app; right; left; reflexivity).
          pose proof (init_only_by_sip_task cfg s' _ c r HI' Hin) as Hpc'.
          destruct (existsb is_set_bits tr') eqn:Eset.
          -- apply existsb_exists in Eset as (e & Hine & He).
             destruct e; try discriminate He.
             exists bits. apply in_or_app; left; exact Hine.
          -- destruct (Hblk eq_refl) as [Hw' _]. congruence. }
  destruct HIrun as (_ & _ & Hpre). exact Hpre.
Qed.

Lemma disconnect_in_delay (cfg : sdkconfig) (s : system) (data : pointer)
    (r : bool) (io : option SipClientEvent) :
  halted s = false -> sip_pc s = Some L_delay -> evt_pending s = [] ->
  registry s = client_registry -> wifi_started s = true ->
  let s1 := fst (run cfg (disconnect_handled data) s) in
  let s2 := fst (step cfg (run_sip r io) s1) in
  snd (run cfg (disconnect_handled data) s)
  = [notified WIFI_EVENT WIFI_EVENT_STA_DISCONNECTED;
     client_deinit; esp_wifi_connect; xEventGroupClearBits CONNECTED_BIT]
  /\ link_ready s1 = false
  /\ snd (step cfg (run_sip r io) s1)
     = [ESP_LOGI "Waiting to try again..."; vTaskDelay (retry_ticks cfg)]
  /\ sip_pc s2 = Some L_wait
  /\ link_ready s2 = false
  /\ forall r' io', step cfg (run_sip r' io') s2 = (s2, []).
Proof.
  intros Hh Hpc Hev Hreg Hws s1 s2.
  destruct s as [cl g reg ws mp ep pc h].
  cbn [halted sip_pc evt_pending registry wifi_started] in Hh, Hpc, Hev, Hreg, Hws.
  subst h pc ep reg ws.
  assert (Hclear : Z.testbit (Z.ldiff g CONNECTED_BIT) 0 = false).
  { rewrite Z.ldiff_spec. change (Z.testbit CONNECTED_BIT 0) with true.
    apply andb_false_r. }
  assert (E1 : s1 = {| client := deinit cl;
                       wifi_event_group := Z.ldiff g CONNECTED_BIT;
                       registry := client_registry; wifi_started := true;
                       main_pending := mp; evt_pending := [];
                       sip_pc := Some L_delay; halted := false |})
    by reflexivity.
  assert (E2 : s2 = {| client := deinit cl;
                       wifi_event_group := Z.ldiff g CONNECTED_BIT;
                       registry := client_registry; wifi_started := true;
                       main_pending := mp; evt_pending := [];
                       sip_pc := Some L_wait; halted := false |})
    by (unfold s2; rewrite E1; reflexivity).
  split; [reflexivity |].
  split; [rewrite E1, link_ready_bit0; exact Hclear |].
  split; [rewrite E1; reflexivity |].
  split; [rewrite E2; reflexivity |].
  assert (Hready2 : link_ready s2 = false)
    by (rewrite E2, link_ready_bit0; exact Hclear).
  split; [exact Hready2 |].
  intros r' io'. unfold step. rewrite E2 in *. cbn -[link_ready].
  rewrite Hready2. reflexivity.
Qed.

(** C8. Take any reachable state in which [sip_task] is in its retry
    delay and the event loop is idle.  If a link-disconnected notification
    is handled during the delay (teardown, reassociation, readiness bit
    cleared), then when the delay ends [sip_task] stands at the wait on the
    readiness bit with the bit clear: it cannot move, and in every
    continuation no [init()] is called before the bit is set again. *)
Theorem C8_disconnect_during_delay_blocks :
  forall (cfg : sdkconfig) (sched0 : list choice) (data : pointer)
         (r : bool) (io : option SipClientEvent),
    let s := fst (run cfg sched0 (boot cfg)) in
    halted s = false -> sip_pc s = Some L_delay -> evt_pending s = [] ->
    let s1 := fst (run cfg (disconnect_handled data) s) in
    let s2 := fst (step cfg (run_sip r io) s1) in
    snd (run cfg (disconnect_handled data) s)
    = [notified WIFI_EVENT WIFI_EVENT_STA_DISCONNECTED;
       client_deinit; esp_wifi_connect; xEventGroupClearBits CONNECTED_BIT]
    /\ link_ready s1 = false
    /\ snd (step cfg (run_sip r io) s1)
       = [ESP_LOGI "Waiting to try again..."; vTaskDelay (retry_ticks cfg)]
    /\ sip_pc s2 = Some L_wait
    /\ link_ready s2 = false
    /\ (forall r' io', step cfg (run_sip r' io') s2 = (s2, []))
    /\ (forall sched pre r' post,
          snd (run cfg sched s2) = pre ++ client_init r' :: post ->
          exists b, In (xEventGroupSetBits b) pre).
Proof.
  intros cfg sched0 data r io s Hh Hpc Hev s1 s2.
  pose proof (inv_run cfg sched0) as HI. fold s in HI.
  assert (Hc : created s = true) by (unfold created; rewrite Hpc; reflexivity).
  destruct (registered_once_created cfg s _ HI Hc) as [Hreg Hws].
  destruct (disconnect_in_delay cfg s data r io Hh Hpc Hev Hreg Hws)
    as (T1 & T2 & T3 & T4 & T5 & T6).
  fold s1 in T2, T3, T4, T5, T6. fold s2 in T4, T5, T6.
  repeat (split; [assumption |]).
  pose proof (inv_run cfg (sched0 ++ disconnect_handled data ++ [run_sip r io])) as HI2.
  rewrite !run_app, run_one in HI2. cbn [fst snd] in HI2.
  fold s in HI2. fold s1 in HI2. fold s2 in HI2.
  exact (blocked_until_set cfg s2 _ HI2 T4 T5).
Qed.

Lemma C8_disconnect_during_delay_witness :
  (let s := fst (run cfg_one_key link_up_init_failed (boot cfg_one_key)) in
   halted s = false /\ sip_pc s = Some L_delay /\ evt_pending s = [])
  /\ (let s := fst (run cfg_one_key link_up_init_failed (boot cfg_one_key)) in
      let s1 := fst (run cfg_one_key (disconnect_handled NULL) s) in
      let s2 := fst (step cfg_one_key (run_sip false None) s1) in
      sip_pc s2 = Some L_wait /\ link_ready s2 = false).
Proof.
  split; [repeat split; reflexivity |].
  pose proof (C8_disconnect_during_delay_blocks cfg_one_key link_up_init_failed
                NULL false None eq_refl eq_refl eq_refl) as H.
  cbv zeta in *. destruct H as (_ & _ & _ & H4 & H5 & _).
  split; [exact H4 | exact H5].
Defined.


(* ===================================================================== *)
(** ** The text of an address *)
(* ===================================================================== *)

Lemma print_d_nonempty (n : Z) : (1 <= String.length (print_d n))%nat.
Proof.
  unfold print_d. destruct (n <? 10); [simpl; lia |].
  destruct (n <? 100); simpl; lia.
Qed.

(** X1. [ip_to_string] never cuts the text: for every address word the
    16-byte buffer holds the whole dotted text, which has between 7 and 15
    characters. *)
Theorem X1_ip_to_string_fits_buffer :
  forall a : esp_ip4_addr_t,
    ip_to_string a = IPSTR_IP2STR a
    /\ (7 <= String.length (ip_to_string a) <= 15)%nat.
Proof.
  intros a. rewrite ip_to_string_not_cut. split; [reflexivity |].
  unfold IPSTR_IP2STR. rewrite !length_append.
  pose proof (print_d_length (esp_ip4_addr_get_byte a 0)) as H0.
  pose proof (print_d_length (esp_ip4_addr_get_byte a 1)) as H1.
  pose proof (print_d_length (esp_ip4_addr_get_byte a 2)) as H2.
  pose proof (print_d_length (esp_ip4_addr_get_byte a 3)) as H3.
  pose proof (print_d_nonempty (esp_ip4_addr_get_byte a 0)) as G0.
  pose proof (print_d_nonempty (esp_ip4_addr_get_byte a 1)) as G1.
  pose proof (print_d_nonempty (esp_ip4_addr_get_byte a 2)) as G2.
  pose proof (print_d_nonempty (esp_ip4_addr_get_byte a 3)) as G3.
  revert H0 H1 H2 H3 G0 G1 G2 G3.
  generalize (String.length (print_d (esp_ip4_addr_get_byte a 0))),
             (String.length (print_d (esp_ip4_addr_get_byte a 1))),
             (String.length (print_d (esp_ip4_addr_get_byte a 2))),
             (String.length (print_d (esp_ip4_addr_get_byte a 3))).
  intros n0 n1 n2 n3 H0 H1 H2 H3 G0 G1 G2 G3.
  change (String.length ".") with 1%nat. lia.
Qed.

Lemma get_byte_mod (a : esp_ip4_addr_t) (i : Z) :
  0 <= i ->
  esp_ip4_addr_get_byte a i = (addr a / 2 ^ (8 * i)) mod 256.
Proof.
  intros Hi. unfold esp_ip4_addr_get_byte.
  change 255 with (Z.ones 8). rewrite Z.land_ones by lia.
  rewrite Z.shiftr_div_pow2 by lia. reflexivity.
Qed.

Lemma get_byte_range (a : esp_ip4_addr_t) (i : Z) :
  0 <= i -> 0 <= esp_ip4_addr_get_byte a i < 256.
Proof.
  intros Hi. rewrite get_byte_mod by exact Hi. apply Z.mod_pos_bound. lia.
Qed.

Lemma bytes_of_ip4 (b0 b1 b2 b3 : Z) :
  0 <= b0 < 256 -> 0 <= b1 < 256 -> 0 <= b2 < 256 -> 0 <= b3 < 256 ->
  esp_ip4_addr_get_byte (ip4_of_bytes b0 b1 b2 b3) 0 = b0
  /\ esp_ip4_addr_get_byte (ip4_of_bytes b0 b1 b2 b3) 1 = b1
  /\ esp_ip4_addr_get_byte (ip4_of_bytes b0 b1 b2 b3) 2 = b2
  /\ esp_ip4_addr_get_byte (ip4_of_bytes b0 b1 b2 b3) 3 = b3.
Proof.
  intros H0 H1 H2 H3. rewrite !get_byte_mod by lia.
  unfold ip4_of_bytes; cbn [addr].
  change (2 ^ (8 * 0)) with 1. change (2 ^ (8 * 1)) with 256.
  change (2 ^ (8 * 2)) with 65536. change (2 ^ (8 * 3)) with 16777216.
  repeat split; Z.to_euclidean_division_equations; lia.
Qed.

(** X2. The text starts with the byte stored first: the address whose
    bytes in memory are b0, b1, b2, b3 is written "b0.b1.b2.b3". *)
Theorem X2_ip_to_string_byte_order :
  forall b0 b1 b2 b3 : Z,
    0 <= b0 < 256 -> 0 <= b1 < 256 -> 0 <= b2 < 256 -> 0 <= b3 < 256 ->
    ip_to_string (ip4_of_bytes b0 b1 b2 b3)
    = (print_d b0 ++ "." ++ print_d b1 ++ "." ++ print_d b2 ++ "." ++ print_d b3)%string.
Proof.
  intros b0 b1 b2 b3 H0 H1 H2 H3.
  rewrite ip_to_string_not_cut. unfold IPSTR_IP2STR.
  destruct (bytes_of_ip4 b0 b1 b2 b3 H0 H1 H2 H3) as (-> & -> & -> & ->).
  reflexivity.
Qed.

Lemma X2_byte_order_witness :
  ip_to_string (ip4_of_bytes 192 168 4 50) = "192.168.4.50".
Proof.
  apply (X2_ip_to_string_byte_order 192 168 4 50);
    split; first [discriminate | reflexivity].
Defined.

Lemma digit_code (d : Z) :
  0 <= d <= 9 -> N_of_ascii (digit d) = Z.to_N (48 + d).
Proof.
  intros H. unfold digit. apply N_ascii_embedding. lia.
Qed.

Lemma digit_inj (d d' : Z) :
  0 <= d <= 9 -> 0 <= d' <= 9 -> digit d = digit d' -> d = d'.
Proof.
  intros H H' E. apply (f_equal N_of_ascii) in E.
  rewrite !digit_code in E by assumption.
  apply Z2N.inj in E; lia.
Qed.

Lemma digit_not_dot (d : Z) :
  0 <= d <= 9 -> Ascii.eqb (digit d) "." = false.
Proof.
  intros H. destruct (Ascii.eqb_spec (digit d) ".") as [E|]; [| reflexivity].
  apply (f_equal N_of_ascii) in E. rewrite digit_code in E by assumption.
  change (N_of_ascii ".") with (Z.to_N 46) in E.
  apply Z2N.inj in E; lia.
Qed.

Lemma print_d_dot_free (n : Z) :
  0 <= n < 1000 -> dot_free (print_d n) = true.
Proof.
  intros H. unfold print_d.
  destruct (Z.ltb_spec n 10); [| destruct (Z.ltb_spec n 100)]; cbn [dot_free];
    rewrite ?digit_not_dot; try reflexivity;
    Z.to_euclidean_division_equations; lia.
Qed.

Lemma print_d_inj (n m : Z) :
  0 <= n < 1000 -> 0 <= m < 1000 -> print_d n = print_d m -> n = m.
Proof.
  intros Hn Hm. unfold print_d.
  destruct (Z.ltb_spec n 10); [| destruct (Z.ltb_spec n 100)];
    (destruct (Z.ltb_spec m 10); [| destruct (Z.ltb_spec m 100)]);
    intros E; try discriminate E.
  - injection E as E. apply digit_inj in E; lia.
  - injection E as E1 E2.
    apply digit_inj in E1; [| Z.to_euclidean_division_equations; lia ..].
    apply digit_inj in E2; [| Z.to_euclidean_division_equations; lia ..].
    Z.to_euclidean_division_equations; lia.
  - injection E as E1 E2 E3.
    apply digit_inj in E1; [| Z.to_euclidean_division_equations; lia ..].
    apply digit_inj in E2; [| Z.to_euclidean_division_equations; lia ..].
    apply digit_inj in E3; [| Z.to_euclidean_division_equations; lia ..].
    Z.to_euclidean_division_equations; lia.
Qed.

Lemma split_at_dot (s t r r' : string) :
  dot_free s = true -> dot_free t = true ->
  (s ++ String "." r)%string = (t ++ String "." r')%string ->
  s = t /\ r = r'.
Proof.
  revert t. induction s as [|c s IH]; intros [|c' t] Hs Ht E; simpl in *.
  - injection E as E. split; [reflexivity | exact E].
  - injection E as E1 E2. subst c'. discriminate Ht.
  - injection E as E1 E2. subst c. discriminate Hs.
  - injection E as E1 E2. subst c'.
    apply andb_true_iff in Hs as [_ Hs]. apply andb_true_iff in Ht as [_ Ht].
    destruct (IH t Hs Ht E2) as [-> ->]. split; reflexivity.
Qed.

Lemma addr_of_its_bytes (a : esp_ip4_addr_t) :
  0 <= addr a < 2 ^ 32 ->
  addr a = esp_ip4_addr_get_byte a 0 + 256 * esp_ip4_addr_get_byte a 1
           + 65536 * esp_ip4_addr_get_byte a 2
           + 16777216 * esp_ip4_addr_get_byte a 3.
Proof.
  intros H. rewrite !get_byte_mod by lia.
  change (2 ^ (8 * 0)) with 1. change (2 ^ (8 * 1)) with 256.
  change (2 ^ (8 * 2)) with 65536. change (2 ^ (8 * 3)) with 16777216.
  change (2 ^ 32) with 4294967296 in H.
  Z.to_euclidean_division_equations; lia.
Qed.

(** X3. Two 32-bit addresses with the same text are the same address:
    [ip_to_string] loses nothing of the address it writes. *)
Theorem X3_ip_to_string_injective :
  forall a b : esp_ip4_addr_t,
    0 <= addr a < 2 ^ 32 -> 0 <= addr b < 2 ^ 32 ->
    ip_to_string a = ip_to_string b ->
    addr a = addr b.
Proof.
  intros a b Ha Hb E. rewrite !ip_to_string_not_cut in E.
  unfold IPSTR_IP2STR in E. cbn [append] in E.
  assert (R : forall x i, 0 <= i -> 0 <= esp_ip4_addr_get_byte x i < 1000).
  { intros x i Hi. pose proof (get_byte_range x i Hi). lia. }
  apply split_at_dot in E as [E0 E]; [| apply print_d_dot_free, R; lia ..].
  apply split_at_dot in E as [E1 E]; [| apply print_d_dot_free, R; lia ..].
  apply split_at_dot in E as [E2 E3]; [| apply print_d_dot_free, R; lia ..].
  apply print_d_inj in E0; [| apply R; lia ..].
  apply print_d_inj in E1; [| apply R; lia ..].
  apply print_d_inj in E2; [| apply R; lia ..].
  apply print_d_inj in E3; [| apply R; lia ..].
  rewrite (addr_of_its_bytes a Ha), (addr_of_its_bytes b Hb).
  rewrite E0, E1, E2, E3. reflexivity.
Qed.

Lemma X3_injective_witness :
  addr (ip4_of_bytes 192 168 4 50) = addr got_ip_example.(ip_info).(ip).
Proof.
  apply X3_ip_to_string_injective;
    first [reflexivity | split; first [discriminate | reflexivity]].
Defined.

(* ===================================================================== *)
(** ** The address-acquired branch without the gateway option *)
(* ===================================================================== *)

(** X4. Without the gateway option, handling an address-acquired
    notification on the client writes the dotted text of the acquired
    address as the local address, leaves the server address and the session
    state alone, sets the readiness bit and does not abort; the line it logs
    first shows the address it records. *)
Theorem X4_got_ip_records_local_address :
  forall (cfg : sdkconfig) (ev : ip_event_got_ip_t) (s : system),
    CONFIG_SIP_SERVER_IS_DHCP_SERVER cfg = false ->
    let es := calls (event_handler cfg ptr_client IP_EVENT IP_EVENT_STA_GOT_IP
                       (ptr_got_ip ev)) in
    let s' := apply_effects cfg es s in
    my_ip (client s') = IPSTR_IP2STR (ip (ip_info ev))
    /\ hd_error es = Some (ESP_LOGI ("got ip:" ++ my_ip (client s'))%string)
    /\ server_ip (client s') = server_ip (client s)
    /\ session (client s') = session (client s)
    /\ link_ready s' = true
    /\ halted s' = halted s.
Proof.
  intros cfg ev s H es s'. unfold s', es.
  rewrite (got_ip_without_gateway_option cfg ev H).
  unfold apply_effects. cbn [fold_left hd_error].
  match goal with
  | |- my_ip (client ?t) = _ /\ _ =>
      assert (Hmy : my_ip (client t) = ip_to_string (ip (ip_info ev)))
        by reflexivity
  end.
  rewrite Hmy, ip_to_string_not_cut.
  split; [reflexivity |]. split; [reflexivity |].
  split; [reflexivity |]. split; [reflexivity |].
  split; [apply (link_ready_after_set cfg) | reflexivity].
Qed.

Lemma X4_got_ip_witness :
  my_ip (client (apply_effects cfg_one_key
                   (calls (event_handler cfg_one_key ptr_client IP_EVENT
                             IP_EVENT_STA_GOT_IP (ptr_got_ip got_ip_example)))
                   (boot cfg_one_key)))
  = "192.168.4.50".
Proof.
  exact (proj1 (X4_got_ip_records_local_address cfg_one_key got_ip_example
                  (boot cfg_one_key) eq_refl)).
Defined.

(* ===================================================================== *)
(** ** More of what holds in every state after start-up *)
(* ===================================================================== *)

Lemma checked_app {St : Type} (ok : St -> effect -> bool) (upd : St -> effect -> St)
    (st : St) (tr es : list effect) :
  checked ok upd st (tr ++ es)
  = checked ok upd st tr && checked ok upd (fold_left upd tr st) es.
Proof.
  revert st. induction tr as [|e tr IH]; intros st; simpl; [reflexivity |].
  rewrite IH, andb_assoc. reflexivity.
Qed.

Lemma checked_split {St : Type} (ok : St -> effect -> bool) (upd : St -> effect -> St)
    (st : St) (pre post : list effect) (e : effect) :
  checked ok upd st (pre ++ e :: post) = true ->
  ok (fold_left upd pre st) e = true.
Proof.
  rewrite checked_app. simpl. intros H.
  apply andb_true_iff in H as [_ H]. apply andb_true_iff in H as [H _]. exact H.
Qed.

Lemma last_notified_app (tr es : list effect) :
  last_notified (tr ++ es) = fold_left note_step es (last_notified tr).
Proof. unfold last_notified. apply fold_left_app. Qed.

Lemma installed_app (tr es : list effect) :
  installed (tr ++ es) = fold_left inst_step es (installed tr).
Proof. unfold installed. apply fold_left_app. Qed.

Lemma is_notification_eq (n : option (esp_event_base_t * Z))
    (b : esp_event_base_t) (id : Z) :
  is_notification n b id = true -> n = Some (b, id).
Proof.
  destruct n as [[b' id']|]; simpl; [| discriminate].
  intros H. apply andb_true_iff in H as [Hb Hid].
  apply Z.eqb_eq in Hid. subst id'.
  destruct b', b; try discriminate; reflexivity.
Qed.

Lemma handler_calls_allowed (cfg : sdkconfig) (arg : pointer) (b : esp_event_base_t)
    (id : Z) (data : pointer) :
  forallb (allowed cfg (Some (b, id))) (calls (event_handler cfg arg b id data)) = true.
Proof.
  unfold event_handler.
  destruct (base_eqb b WIFI_EVENT && (id =? WIFI_EVENT_STA_START)) eqn:E1.
  { simpl. rewrite E1. reflexivity. }
  destruct (base_eqb b WIFI_EVENT && (id =? WIFI_EVENT_STA_DISCONNECTED)) eqn:E2.
  { destruct arg; simpl; rewrite ?E1, ?E2; reflexivity. }
  destruct (base_eqb b IP_EVENT && (id =? IP_EVENT_STA_GOT_IP)) eqn:E3; [| reflexivity].
  destruct data as [| |ev|a]; simpl; rewrite ?E2, ?E3; try reflexivity.
  destruct (CONFIG_SIP_SERVER_IS_DHCP_SERVER cfg) eqn:Ed; destruct arg; simpl;
    rewrite ?E2, ?E3, ?Ed; reflexivity.
Qed.

Lemma dispatch_allowed (cfg : sdkconfig) (reg : list registration)
    (b : esp_event_base_t) (id : Z) (data : pointer) :
  forallb (allowed cfg (Some (b, id))) (dispatch cfg reg b id data) = true.
Proof.
  unfold dispatch. induction (handler_args reg b id) as [|arg l IH]; simpl.
  - reflexivity.
  - rewrite forallb_app, handler_calls_allowed, IH. reflexivity.
Qed.

Lemma inv2_boot (cfg : sdkconfig) : Inv2 cfg (boot cfg) [].
Proof.
  constructor; try reflexivity; try (left; reflexivity).
  - apply inv_boot.
  - intros _. split; [discriminate | discriminate].
Qed.

Ltac scan2_snoc :=
  rewrite ?last_notified_app, ?installed_app, ?checked_app;
  cbn [fold_left checked note_step after_install needs_callback allowed forallb];
  unfold inst_step; cbn [is_set_event_handler];
  rewrite ?orb_false_r, ?orb_true_r, ?andb_true_r.

Lemma inv2_main_step (cfg : sdkconfig) (s : system) (tr : list effect)
    (e : effect) (rest : list effect) :
  Inv2 cfg s tr -> main_pending s = e :: rest ->
  Inv2 cfg (apply_effect cfg e (with_main_pending rest s)) (tr ++ [e]).
Proof.
  intros [Hb Hp Ho Hs Hg Hni Hc Hn Hh] Hpend.
  pose proof (inv_main_step cfg s tr e rest Hb Hpend) as Hb'.
  pose proof (inv_main _ _ _ Hb) as Hm. rewrite Hpend in Hm.
  pose proof (inv_none _ _ _ Hb) as Hnone.
  unfold created in Hm.
  destruct e; simpl in Hm; try discriminate;
    try (apply andb_true_iff in Hm as [Hcr Hm];
         destruct (sip_pc s) eqn:Epc; try discriminate);
    constructor; scan2_snoc; rewrite ?Ho, ?Hc; simpl;
    try assumption; try reflexivity; try (intros; discriminate).
  all: rewrite ?Epc.
  all: try (intros _; exact (Hn eq_refl)).
  all: try (symmetry; exact (Hn eq_refl)).
  all: intros H; split; [discriminate |]; intros Hi;
    first [discriminate Hi | rewrite (Hnone eq_refl) in Hi; discriminate Hi].
Qed.

Lemma inv2_deliver_step (cfg : sdkconfig) (s : system) (tr : list effect)
    (b : esp_event_base_t) (id : Z) (data : pointer) :
  Inv2 cfg s tr ->
  Inv2 cfg (with_evt_pending (dispatch cfg (registry s) b id data) s)
       (tr ++ [notified b id]).
Proof.
  intros [Hb Hp Ho Hs Hg Hni Hc Hn Hh].
  constructor; scan2_snoc; rewrite ?Ho, ?Hc; simpl;
    try assumption; try reflexivity.
  - apply inv_deliver_step. exact Hb.
  - apply dispatch_allowed.
Qed.

Lemma inv2_evt_step (cfg : sdkconfig) (s : system) (tr : list effect)
    (e : effect) (rest : list effect) :
  Inv2 cfg s tr -> evt_pending s = e :: rest ->
  Inv2 cfg (apply_effect cfg e (with_evt_pending rest s)) (tr ++ [e]).
Proof.
  intros [Hb Hp Ho Hs Hg Hni Hc Hn Hh] Hpend.
  pose proof (inv_evt_step cfg s tr e rest Hb Hpend) as Hb'.
  pose proof (inv_evt _ _ _ Hb) as He. rewrite Hpend in He, Hp.
  cbn [forallb] in Hp. apply andb_true_iff in Hp as [Hal Hp].
  destruct e; simpl in He; try discriminate;
    constructor; scan2_snoc; rewrite ?Ho, ?Hc; cbn [andb];
    try assumption; try (rewrite ?Hal; reflexivity); cbn -[Z.ldiff Z.lor];
    try assumption.
  all: try (intros H; specialize (Hni H); destruct Hni as [H1 H2];
            split; [exact H1 | intros Hi; try discriminate Hi; exact (H2 Hi)]).
  - (* set_server_ip *)
    intros Hd. simpl in Hal. rewrite Hd, andb_false_r in Hal. discriminate.
  - (* clear bits *)
    simpl in Hal. apply andb_true_iff in Hal as [_ Hbits].
    apply Z.eqb_eq in Hbits. subst bits.
    destruct Hg as [-> | ->]; left; reflexivity.
  - (* set bits *)
    simpl in Hal. apply andb_true_iff in Hal as [_ Hbits].
    apply Z.eqb_eq in Hbits. subst bits.
    destruct Hg as [-> | ->]; right; reflexivity.
Qed.

Lemma quiet_note (es : list effect) (n : option (esp_event_base_t * Z)) :
  forallb quiet es = true -> fold_left note_step es n = n.
Proof.
  induction es as [|e es IH]; intros H; simpl in *; [reflexivity |].
  apply andb_true_iff in H as [He H]. destruct e; try discriminate; auto.
Qed.

Lemma quiet_allowed (cfg : sdkconfig) (es : list effect)
    (n : option (esp_event_base_t * Z)) :
  forallb quiet es = true -> checked (allowed cfg) note_step n es = true.
Proof.
  induction es as [|e es IH]; intros H; simpl in *; [reflexivity |].
  apply andb_true_iff in H as [He H]. destruct e; try discriminate; simpl; auto.
Qed.

Lemma quiet_inst (es : list effect) (b : bool) :
  forallb quiet es = true -> fold_left inst_step es b = b.
Proof.
  revert b. induction es as [|e es IH]; intros b H; simpl in *; [reflexivity |].
  apply andb_true_iff in H as [He H].
  destruct e; try discriminate; unfold inst_step at 2; simpl;
    rewrite orb_false_r; auto.
Qed.

Lemma quiet_after_install (es : list effect) :
  forallb quiet es = true -> checked after_install inst_step true es = true.
Proof.
  induction es as [|e es IH]; intros H; simpl in *; [reflexivity |].
  apply andb_true_iff in H as [He H]. destruct e; try discriminate; simpl; auto.
Qed.

Lemma inv2_sip_step (cfg : sdkconfig) (s : system) (tr : list effect)
    (pc : sip_loc) (r : bool) (io : option SipClientEvent) :
  Inv2 cfg s tr -> sip_pc s = Some pc ->
  Inv2 cfg (apply_effects cfg (fst (sip_task cfg pc s r io))
              (with_sip_pc (Some (snd (sip_task cfg pc s r io))) s))
       (tr ++ fst (sip_task cfg pc s r io)).
Proof.
  intros [Hb Hp Ho Hs Hg Hni Hc Hn Hh] Hpc.
  pose proof (inv_sip_step cfg s tr pc r io Hb Hpc) as Hb'.
  rewrite Hpc in Hni.
  destruct pc.
  - (* L_wait *)
    simpl in *. destruct (link_ready s); simpl in *.
    + constructor; scan2_snoc; rewrite ?Ho, ?Hc; simpl;
        try assumption; try reflexivity; try (intros; discriminate).
      intros H. destruct (Hni H) as [_ H2]. split; [discriminate |].
      intros Hi. specialize (H2 Hi). discriminate H2.
    + rewrite app_nil_r in *.
      constructor; simpl; try assumption; try (intros; discriminate).
  - (* L_check *)
    simpl in *.
    constructor; scan2_snoc; rewrite ?Ho, ?Hc; simpl;
      try assumption; try reflexivity; try (intros; discriminate).
    intros H. destruct (Hni H) as [_ H2].
    destruct (is_initialized (client s)); [specialize (H2 eq_refl); discriminate |].
    split; [discriminate | intros Hi; discriminate Hi].
  - (* L_init *)
    simpl in *.
    constructor; scan2_snoc; rewrite ?Ho, ?Hc; simpl;
      try assumption; try reflexivity; try (intros; discriminate).
    intros H. destruct (Hni H) as [_ H2]. destruct r.
    + split; [discriminate | reflexivity].
    + split; [discriminate |]. unfold is_initialized in *; simpl.
      intros Hi. specialize (H2 Hi). discriminate H2.
  - (* L_delay *)
    simpl in *.
    constructor; scan2_snoc; rewrite ?Ho, ?Hc; simpl;
      try assumption; try reflexivity; try (intros; discriminate).
    intros H. destruct (Hni H) as [_ H2]. split; [discriminate |].
    intros Hi. specialize (H2 Hi). discriminate H2.
  - (* L_set_handler *)
    simpl in *.
    constructor; scan2_snoc; rewrite ?Ho, ?Hc; simpl;
      try assumption; try reflexivity; try (intros; discriminate).
  - (* L_run *)
    assert (Hinst : installed tr = true).
    { destruct (installed tr); [reflexivity |].
      destruct (Hni eq_refl) as [H1 _]. contradiction H1. reflexivity. }
    assert (Hquiet : forallb quiet (fst (sip_task cfg L_run s r io)) = true).
    { unfold sip_task. destruct io as [ev|]; [| reflexivity].
      cbn [fst]. destruct (has_event_handler (client s)); [| reflexivity].
      unfold event_router. destruct (event ev); try reflexivity.
      simpl. destruct (Ascii.eqb _ _); reflexivity. }
    assert (Hpc' : snd (sip_task cfg L_run s r io) = L_run
                   \/ snd (sip_task cfg L_run s r io) = L_wait).
    { unfold sip_task. destruct io; [left | right]; reflexivity. }
    revert Hb' Hquiet Hpc'.
    generalize (fst (sip_task cfg L_run s r io)) as es.
    generalize (snd (sip_task cfg L_run s r io)) as pc'.
    intros pc' es Hb' Hquiet Hpc'.
    rewrite (quiet_apply cfg es _ Hquiet) in *.
    constructor;
      rewrite ?last_notified_app, ?installed_app, ?checked_app;
      change (fold_left inst_step tr false) with (installed tr);
      rewrite ?(quiet_note es _ Hquiet), ?(quiet_allowed cfg es _ Hquiet),
              ?(quiet_inst es _ Hquiet), ?Hinst,
              ?(quiet_after_install es Hquiet), ?Ho, ?Hc; simpl;
      try assumption; try reflexivity; try (intros; discriminate).
    rewrite <- Hinst. exact Hh.
Qed.

Lemma inv2_step (cfg : sdkconfig) (s : system) (tr : list effect) (c : choice) :
  Inv2 cfg s tr -> Inv2 cfg (fst (step cfg c s)) (tr ++ snd (step cfg c s)).
Proof.
  intros HI. unfold step.
  destruct (halted s); [simpl; rewrite app_nil_r; exact HI |].
  destruct c as [|b id data| |r io].
  - destruct (main_pending s) as [|e rest] eqn:E; simpl.
    + rewrite app_nil_r; exact HI.
    + apply inv2_main_step; assumption.
  - destruct (evt_pending s) as [|e rest] eqn:E; simpl.
    + destruct (wifi_started s); simpl.
      * apply inv2_deliver_step; assumption.
      * rewrite app_nil_r; exact HI.
    + rewrite app_nil_r; exact HI.
  - destruct (evt_pending s) as [|e rest] eqn:E; simpl.
    + rewrite app_nil_r; exact HI.
    + apply inv2_evt_step; assumption.
  - destruct (sip_pc s) as [pc|] eqn:E; simpl.
    + pose proof (inv2_sip_step cfg s tr pc r io HI E) as H.
      destruct (sip_task cfg pc s r io) as [es pc']; simpl in *. exact H.
    + rewrite app_nil_r; exact HI.
Qed.

Lemma inv2_run (cfg : sdkconfig) (sched : list choice) :
  Inv2 cfg (fst (run cfg sched (boot cfg))) (snd (run cfg sched (boot cfg))).
Proof.
  apply run_invariant; [apply inv2_boot | intros; apply inv2_step; assumption].
Qed.

(* ===================================================================== *)
(** ** Which notification a call of the handler answers *)
(* ===================================================================== *)

Lemma origin_of_call (cfg : sdkconfig) (sched : list choice)
    (pre post : list effect) (e : effect) :
  snd (run cfg sched (boot cfg)) = pre ++ e :: post ->
  allowed cfg (last_notified pre) e = true.
Proof.
  intros E. pose proof (inv2_origin _ _ _ (inv2_run cfg sched)) as H.
  rewrite E in H. exact (checked_split _ _ _ _ _ _ H).
Qed.

(** X5. In every run from start-up each call of the handler answers the
    notification the event loop took last: [deinit()] and the clearing of
    the readiness bit a link-disconnected one, the local address and the
    setting of the bit an address-acquired one, and the firmware aborts only
    in the handling of one of these two; the only bit ever written is
    CONNECTED_BIT. *)
Theorem X5_handler_calls_answer_their_notification :
  forall (cfg : sdkconfig) (sched : list choice),
    let tr := snd (run cfg sched (boot cfg)) in
    (forall pre post,
        tr = pre ++ client_deinit :: post ->
        last_notified pre = Some (WIFI_EVENT, WIFI_EVENT_STA_DISCONNECTED))
    /\ (forall pre bits post,
          tr = pre ++ xEventGroupClearBits bits :: post ->
          last_notified pre = Some (WIFI_EVENT, WIFI_EVENT_STA_DISCONNECTED)
          /\ bits = CONNECTED_BIT)
    /\ (forall pre bits post,
          tr = pre ++ xEventGroupSetBits bits :: post ->
          last_notified pre = Some (IP_EVENT, IP_EVENT_STA_GOT_IP)
          /\ bits = CONNECTED_BIT)
    /\ (forall pre a post,
          tr = pre ++ client_set_my_ip a :: post ->
          last_notified pre = Some (IP_EVENT, IP_EVENT_STA_GOT_IP))
    /\ (forall pre f post,
          tr = pre ++ panic f :: post ->
          last_notified pre = Some (WIFI_EVENT, WIFI_EVENT_STA_DISCONNECTED)
          \/ last_notified pre = Some (IP_EVENT, IP_EVENT_STA_GOT_IP)).
Proof.
  intros cfg sched tr.
  split; [| split; [| split; [| split]]].
  - intros pre post H.
    apply is_notification_eq. exact (origin_of_call cfg sched _ _ _ H).
  - intros pre bits post H.
    pose proof (origin_of_call cfg sched _ _ _ H) as Ha. simpl in Ha.
    apply andb_true_iff in Ha as [Ha Hb].
    split; [apply is_notification_eq; exact Ha | apply Z.eqb_eq; exact Hb].
  - intros pre bits post H.
    pose proof (origin_of_call cfg sched _ _ _ H) as Ha. simpl in Ha.
    apply andb_true_iff in Ha as [Ha Hb].
    split; [apply is_notification_eq; exact Ha | apply Z.eqb_eq; exact Hb].
  - intros pre a post H.
    apply is_notification_eq. exact (origin_of_call cfg sched _ _ _ H).
  - intros pre f post H.
    pose proof (origin_of_call cfg sched _ _ _ H) as Ha. simpl in Ha.
    apply orb_true_iff in Ha as [Ha | Ha]; [left | right];
      apply is_notification_eq; exact Ha.
Qed.

(** X6. Without the gateway option the server address given at
    construction is never replaced: in every run from start-up the client
    holds CONFIG_SIP_SERVER_IP and [set_server_ip] is never called. *)
Theorem X6_server_address_kept :
  forall (cfg : sdkconfig) (sched : list choice),
    CONFIG_SIP_SERVER_IS_DHCP_SERVER cfg = false ->
    server_ip (client (fst (run cfg sched (boot cfg)))) = CONFIG_SIP_SERVER_IP cfg
    /\ forall a, ~ In (client_set_server_ip a) (snd (run cfg sched (boot cfg))).
Proof.
  intros cfg sched Hd. split.
  - exact (inv2_server _ _ _ (inv2_run cfg sched) Hd).
  - intros a Hin. apply in_split in Hin as (pre & post & E).
    pose proof (origin_of_call cfg sched _ _ _ E) as Ha. simpl in Ha.
    rewrite Hd, andb_false_r in Ha. discriminate.
Qed.

Lemma X6_server_address_witness :
  server_ip (client s_link_up) = "192.168.179.1".
Proof.
  exact (proj1 (X6_server_address_kept cfg_one_key link_up eq_refl)).
Defined.

(* ===================================================================== *)
(** ** The callback and what runs under it *)
(* ===================================================================== *)

Lemma installed_true_absorbs (es : list effect) :
  fold_left inst_step es true = true.
Proof.
  induction es as [|e es IH]; simpl; [reflexivity | exact IH].
Qed.

Lemma installed_in (tr : list effect) :
  installed tr = true -> In client_set_event_handler tr.
Proof.
  induction tr as [|e tr IH] using rev_ind; [discriminate |].
  rewrite installed_app. simpl. unfold inst_step. intros H.
  apply in_or_app. apply orb_true_iff in H as [H | H].
  - left. exact (IH H).
  - right. destruct e; try discriminate. left; reflexivity.
Qed.

(** X7. In every run from start-up, [io_context.run()] returns and the
    callback calls [call_end()] or [trigger()] only after the callback was
    installed; and whenever [sip_task] stands in [io_context.run()], an
    event the session delivers reaches the event router, which makes exactly
    its calls. *)
Theorem X7_run_only_with_callback :
  forall (cfg : sdkconfig) (sched : list choice),
    let s := fst (run cfg sched (boot cfg)) in
    let tr := snd (run cfg sched (boot cfg)) in
    (forall pre e post,
        tr = pre ++ e :: post -> needs_callback e = true ->
        In client_set_event_handler pre)
    /\ (forall r ev,
          halted s = false -> sip_pc s = Some L_run ->
          snd (step cfg (run_sip r (Some ev)) s) = event_router cfg ev).
Proof.
  intros cfg sched s tr.
  pose proof (inv2_run cfg sched) as HI. fold s tr in HI. split.
  - intros pre e post E Hneed.
    pose proof (inv2_callback _ _ _ HI) as Hc. rewrite E in Hc.
    apply checked_split in Hc. unfold after_install in Hc. rewrite Hneed in Hc.
    apply installed_in. exact Hc.
  - intros r ev Hh Hpc. unfold step. rewrite Hh, Hpc. cbn [sip_task].
    assert (Hinst : installed tr = true).
    { destruct (installed tr) eqn:E; [reflexivity |].
      destruct (inv2_not_installed _ _ _ HI E) as [H1 _]. contradiction. }
    rewrite (inv2_handler _ _ _ HI), Hinst. reflexivity.
Qed.

Lemma count_app (p : effect -> bool) (a b : list effect) :
  count p (a ++ b) = (count p a + count p b)%nat.
Proof. unfold count. rewrite filter_app, length_app. reflexivity. Qed.

Lemma step_actuations (cfg : sdkconfig) (s : system) (tr : list effect) (c : choice) :
  Inv cfg s tr ->
  (count is_trigger (snd (step cfg c s)) <= if matching_press cfg c then 1 else 0)%nat
  /\ (count is_call_end (snd (step cfg c s)) <= if call_ended c then 1 else 0)%nat.
Proof.
  intros [Hm Hr Hw Ht He Hl Hi Hn Hp]. unfold step.
  destruct (halted s); [split; apply Nat.le_0_l |].
  destruct c as [|b id data| |r io].
  - destruct (main_pending s) as [|e rest]; [split; apply Nat.le_0_l |].
    simpl in Hm. destruct e; try discriminate; split; apply Nat.le_0_l.
  - destruct (evt_pending s); [destruct (wifi_started s) |];
      split; apply Nat.le_0_l.
  - destruct (evt_pending s) as [|e rest]; [split; apply Nat.le_0_l |].
    simpl in He. destruct e; try discriminate; split; apply Nat.le_0_l.
  - destruct (sip_pc s) as [pc|]; [| split; apply Nat.le_0_l].
    destruct pc; cbn [sip_task snd fst];
      try (split; apply Nat.le_0_l).
    + destruct (link_ready s); split; apply Nat.le_0_l.
    + destruct io as [ev|]; [| split; apply Nat.le_0_l].
      cbn [matching_press call_ended].
      destruct (has_event_handler (client s));
        [| split; apply Nat.le_0_l].
      unfold event_router.
      destruct (event ev); cbn; try (split; lia).
      destruct (Ascii.eqb _ _); cbn; split; lia.
Qed.

(** X8. In every run from start-up the actuator is triggered at most once
    per BUTTON_PRESS with the trigger signal that the session delivers, and
    [call_end()] is called at most once per CALL_END or CALL_CANCELLED it
    delivers: no other path of the firmware actuates. *)
Theorem X8_actuation_only_on_session_events :
  forall (cfg : sdkconfig) (sched : list choice),
    let tr := snd (run cfg sched (boot cfg)) in
    (count is_trigger tr <= List.length (filter (matching_press cfg) sched))%nat
    /\ (count is_call_end tr <= List.length (filter call_ended sched))%nat.
Proof.
  intros cfg sched. cbv zeta.
  induction sched as [|c sched IH] using rev_ind; [split; apply Nat.le_0_l |].
  rewrite run_snoc. cbn [snd]. rewrite !count_app, !filter_app, !length_app.
  destruct (step_actuations cfg _ _ c (inv_run cfg sched)) as [H1 H2].
  destruct IH as [IH1 IH2]. cbn [filter].
  destruct (matching_press cfg c), (call_ended c); cbn [List.length]; split; lia.
Qed.

(* ===================================================================== *)
(** ** What the lifecycle loop leaves alone *)
(* ===================================================================== *)

(** X9. A move of [sip_task], from any state, leaves the bits of the event
    group as they are (the wait does not consume the readiness bit), and so
    the registrations, the two addresses of the client, the queues of the
    other two contexts and the abort flag: the loop writes only the session
    state, the callback and its own position. *)
Theorem X9_sip_task_leaves_link_state_alone :
  forall (cfg : sdkconfig) (s : system) (r : bool) (io : option SipClientEvent),
    let s' := fst (step cfg (run_sip r io) s) in
    wifi_event_group s' = wifi_event_group s
    /\ registry s' = registry s
    /\ wifi_started s' = wifi_started s
    /\ server_ip (client s') = server_ip (client s)
    /\ my_ip (client s') = my_ip (client s)
    /\ main_pending s' = main_pending s
    /\ evt_pending s' = evt_pending s
    /\ halted s' = halted s.
Proof.
  intros cfg s r io. unfold step.
  destruct (halted s) eqn:Eh; [cbn; rewrite Eh; repeat split |].
  destruct (sip_pc s) as [pc|]; [| cbn; rewrite Eh; repeat split].
  destruct pc; cbn -[link_ready]; rewrite ?Eh; try (repeat split; fail).
  - destruct (link_ready s); cbn; rewrite Eh; repeat split.
  - destruct io as [ev|]; [| cbn; rewrite Eh; repeat split].
    assert (Hq : forallb quiet
                   (if has_event_handler (client s) then event_router cfg ev else [])
                 = true).
    { destruct (has_event_handler (client s)); [| reflexivity].
      unfold event_router. destruct (event ev); try reflexivity.
      simpl. destruct (Ascii.eqb _ _); reflexivity. }
    cbn [fst]. rewrite (quiet_apply cfg _ _ Hq). cbn. rewrite Eh. repeat split.
Qed.

(* ===================================================================== *)
(** ** The handler's argument once the loop exists *)
(* ===================================================================== *)

Lemma handler_on_client_no_null (cfg : sdkconfig) (b : esp_event_base_t) (id : Z)
    (data : pointer) :
  ~ In (panic null_client) (calls (event_handler cfg ptr_client b id data)).
Proof.
  unfold event_handler.
  destruct (base_eqb b WIFI_EVENT && (id =? WIFI_EVENT_STA_START));
    [simpl; intros [H | []]; discriminate |].
  destruct (base_eqb b WIFI_EVENT && (id =? WIFI_EVENT_STA_DISCONNECTED));
    [simpl; intros [H | [H | [H | []]]]; discriminate |].
  destruct (base_eqb b IP_EVENT && (id =? IP_EVENT_STA_GOT_IP)); [| intros []].
  destruct data as [| |ev|a]; simpl; try (intros [H | []]; discriminate).
  destruct (CONFIG_SIP_SERVER_IS_DHCP_SERVER cfg); simpl;
    intros H; repeat (destruct H as [H | H]; try discriminate); exact H.
Qed.

(** X10. Once [sip_task] exists, in every run from start-up, the event
    loop calls the handler exactly once, with the client, for every
    wireless event and for address-acquired, and not at all for any other
    IP event; no handling then starts on a null client. *)
Theorem X10_handler_gets_client_once_loop_exists :
  forall (cfg : sdkconfig) (sched : list choice) (b : esp_event_base_t) (id : Z)
         (data : pointer),
    let s := fst (run cfg sched (boot cfg)) in
    created s = true ->
    handler_args (registry s) b id
    = (if base_eqb b WIFI_EVENT || (id =? IP_EVENT_STA_GOT_IP)
       then [ptr_client] else [])
    /\ ~ In (panic null_client) (dispatch cfg (registry s) b id data).
Proof.
  intros cfg sched b id data s Hc.
  destruct (registered_once_created cfg s _ (inv_run cfg sched) Hc) as [Hreg _].
  unfold dispatch. rewrite Hreg.
  assert (Hargs : handler_args client_registry b id
                  = if base_eqb b WIFI_EVENT || (id =? IP_EVENT_STA_GOT_IP)
                    then [ptr_client] else []).
  { unfold handler_args, client_registry; cbn [filter matches map snd].
    destruct b; cbn [base_eqb andb orb]; [reflexivity |].
    change (IP_EVENT_STA_GOT_IP =? ESP_EVENT_ANY_ID) with false. cbn [orb].
    rewrite (Z.eqb_sym IP_EVENT_STA_GOT_IP id).
    destruct (id =? IP_EVENT_STA_GOT_IP); reflexivity. }
  rewrite Hargs. split; [reflexivity |].
  destruct (base_eqb b WIFI_EVENT || (id =? IP_EVENT_STA_GOT_IP)); [| intros []].
  cbn [flat_map]. rewrite app_nil_r. apply handler_on_client_no_null.
Qed.

Lemma X10_handler_gets_client_witness :
  created s_link_up = true
  /\ handler_args (registry s_link_up) WIFI_EVENT WIFI_EVENT_STA_DISCONNECTED
     = [ptr_client].
Proof.
  split; [reflexivity |].
  exact (proj1 (X10_handler_gets_client_once_loop_exists cfg_one_key link_up
                  WIFI_EVENT WIFI_EVENT_STA_DISCONNECTED NULL eq_refl)).
Defined.

(* ===================================================================== *)
(** ** The length of the retry delay *)
(* ===================================================================== *)

(** X11. For a tick rate between 1 and 1000 Hz the retry delay handed to
    [vTaskDelay] lasts at least 2000 ms and less than 4000 ms of tick
    periods, and exactly 2000 ms when the tick rate divides 1000. *)
Theorem X11_retry_delay_bounds :
  forall cfg : sdkconfig,
    1 <= configTICK_RATE_HZ cfg <= 1000 ->
    2000 * configTICK_RATE_HZ cfg <= retry_ticks cfg * 1000
    /\ retry_ticks cfg * 1000 < 4000 * configTICK_RATE_HZ cfg
    /\ (1000 mod configTICK_RATE_HZ cfg = 0 ->
        retry_ticks cfg * 1000 = 2000 * configTICK_RATE_HZ cfg).
Proof.
  intros cfg Hhz. split; [exact (retry_delay_at_least_2000_ms cfg Hhz) |].
  revert Hhz. unfold retry_ticks, portTICK_RATE_MS, portTICK_PERIOD_MS.
  set (hz := configTICK_RATE_HZ cfg). intros [Hlo Hhi].
  assert (Hp : 1 <= 1000 / hz) by (apply Z.div_le_lower_bound; lia).
  pose proof (Z.div_mod 1000 hz ltac:(lia)) as Hdm.
  pose proof (Z.mod_pos_bound 1000 hz ltac:(lia)) as Hmb.
  set (p := 1000 / hz) in *.
  pose proof (Z.div_mod 2000 p ltac:(lia)) as Hdm2.
  pose proof (Z.mod_pos_bound 2000 p ltac:(lia)) as Hmb2.
  set (t := 2000 / p) in *.
  split.
  - assert (Ht : t * p <= 2000) by lia.
    assert (Hph : 500 < hz * p).
    { destruct (Z_le_gt_dec hz 500) as [Hs | Hb]; [lia |].
      assert (p = 1) by nia. subst p. lia. }
    nia.
  - intros Hm. rewrite Hm in Hdm.
    assert (Hm2 : 2000 mod p = 0).
    { apply Z.mod_divide; [lia |]. exists (2 * hz). lia. }
    rewrite Hm2 in Hdm2. nia.
Qed.

Lemma X11_retry_delay_witness :
  retry_ticks cfg_one_key * 1000 = 2000 * configTICK_RATE_HZ cfg_one_key.
Proof.
  refine (proj2 (proj2 (X11_retry_delay_bounds cfg_one_key _)) eq_refl).
  split; discriminate.
Defined.

(* ===================================================================== *)
(** ** Passes of the loop, one after the other *)
(* ===================================================================== *)

Lemma one_successful_pass (cfg : sdkconfig) (s : system) (io : option SipClientEvent) :
  halted s = false -> sip_pc s = Some L_wait -> link_ready s = true ->
  is_initialized (client s) = false ->
  run cfg (succeeding_pass io) s = (after_successful_pass s, successful_attempt).
Proof.
  destruct s as [cl g reg ws mp ep pc h]. destruct cl as [ss sv my hh].
  unfold is_initialized; cbn -[link_ready].
  intros -> -> Hready Hss. destruct ss; [| discriminate].
  unfold succeeding_pass, run, exec, step; cbn -[link_ready].
  rewrite Hready; cbn -[link_ready].
  reflexivity.
Qed.

Lemma count_repeat_failed (cfg : sdkconfig) (p : effect -> bool) (N : nat) :
  count p (List.concat (repeat (failed_attempt cfg) N))
  = (N * count p (failed_attempt cfg))%nat.
Proof.
  induction N as [|N IH]; [reflexivity |].
  cbn [repeat List.concat]. rewrite count_app, IH. cbn [Nat.mul]. reflexivity.
Qed.

(** X12. With the readiness bit set and the handle not initialized, N
    passes in which [init()] fails followed by one in which it succeeds make
    N + 1 [init()] calls, N retry delays and one installation of the
    callback, the installation last; the loop then stands in
    [io_context.run()] with the handle READY and the callback installed, and
    nothing else of the state has changed. *)
Theorem X12_failures_then_success :
  forall (cfg : sdkconfig) (s : system) (io : option SipClientEvent) (N : nat),
    halted s = false -> sip_pc s = Some L_wait -> link_ready s = true ->
    is_initialized (client s) = false ->
    let sched := List.concat (repeat (failing_pass io) N) ++ succeeding_pass io in
    let tr := snd (run cfg sched s) in
    tr = List.concat (repeat (failed_attempt cfg) N) ++ successful_attempt
    /\ fst (run cfg sched s) = after_successful_pass s
    /\ count is_client_init tr = S N
    /\ count is_delay tr = N
    /\ count is_set_event_handler tr = 1%nat
    /\ last tr client_deinit = client_set_event_handler.
Proof.
  intros cfg s io N H1 H2 H3 H4 sched tr.
  assert (E : run cfg sched s
              = (after_successful_pass s,
                 List.concat (repeat (failed_attempt cfg) N) ++ successful_attempt)).
  { unfold sched. rewrite run_app, (failed_passes cfg s io N H1 H2 H3 H4).
    cbn [fst snd]. rewrite (one_successful_pass cfg s io H1 H2 H3 H4).
    reflexivity. }
  unfold tr. rewrite E. cbn [fst snd].
  split; [reflexivity |]. split; [reflexivity |].
  rewrite !count_app, !count_repeat_failed.
  split; [cbn; lia |]. split; [cbn; lia |]. split; [cbn; lia |].
  change successful_attempt
    with ([xEventGroupWaitBits CONNECTED_BIT; client_is_initialized false;
           client_init true; ESP_LOGI "SIP client initialized successfully"]
          ++ [client_set_event_handler]).
  rewrite app_assoc. apply last_last.
Qed.

Lemma X12_two_failures_then_success_witness :
  (halted s_link_up = false /\ sip_pc s_link_up = Some L_wait
   /\ link_ready s_link_up = true /\ is_initialized (client s_link_up) = false)
  /\ count is_delay
       (snd (run cfg_one_key
               (List.concat (repeat (failing_pass None) 2) ++ succeeding_pass None)
               s_link_up)) = 2%nat.
Proof.
  split; [repeat split; reflexivity |].
  pose proof (X12_failures_then_success cfg_one_key s_link_up None 2
                eq_refl eq_refl eq_refl eq_refl) as H.
  cbv zeta in H. destruct H as (_ & _ & _ & H & _). exact H.
Defined.

Lemma one_ready_pass (cfg : sdkconfig) (s : system) (r : bool) :
  halted s = false -> sip_pc s = Some L_wait -> link_ready s = true ->
  is_initialized (client s) = true ->
  run cfg (ready_pass r) s = (s, ready_pass_calls).
Proof.
  destruct s as [cl g reg ws mp ep pc h]. destruct cl as [ss sv my hh].
  unfold is_initialized; cbn -[link_ready].
  intros -> -> Hready Hss. destruct ss; [discriminate |].
  unfold ready_pass, run, exec, step; cbn -[link_ready].
  rewrite Hready; cbn -[link_ready].
  reflexivity.
Qed.

(** X13. With the readiness bit set and the handle READY, when
    [io_context.run()] returns at once the loop goes round without waiting:
    k passes make k returns of the wait, k checks and k runs, with no delay,
    no [init()] and no installation, and leave the state as it was. *)
Theorem X13_ready_passes_spin :
  forall (cfg : sdkconfig) (s : system) (r : bool) (k : nat),
    halted s = false -> sip_pc s = Some L_wait -> link_ready s = true ->
    is_initialized (client s) = true ->
    let sched := List.concat (repeat (ready_pass r) k) in
    run cfg sched s = (s, List.concat (repeat ready_pass_calls k))
    /\ count is_delay (snd (run cfg sched s)) = 0%nat
    /\ count is_client_init (snd (run cfg sched s)) = 0%nat
    /\ count is_set_event_handler (snd (run cfg sched s)) = 0%nat.
Proof.
  intros cfg s r k H1 H2 H3 H4 sched.
  assert (E : run cfg sched s = (s, List.concat (repeat ready_pass_calls k))).
  { unfold sched. induction k as [|k IH]; [reflexivity |].
    cbn [List.concat repeat].
    rewrite run_app, (one_ready_pass cfg s r H1 H2 H3 H4). cbn [fst snd].
    rewrite IH. reflexivity. }
  split; [exact E |]. rewrite E. cbn [snd]. clear E sched.
  assert (Hc : forall p, count p ready_pass_calls = 0%nat ->
                         count p (List.concat (repeat ready_pass_calls k)) = 0%nat).
  { intros p Hp. induction k as [|k IH]; [reflexivity |].
    cbn [List.concat repeat]. rewrite count_app, Hp. exact IH. }
  repeat split; apply Hc; reflexivity.
Qed.

(** The loop after a successful pass and one return of [io_context.run()]. *)
Lemma X13_ready_passes_witness :
  (let s := fst (run cfg_one_key (succeeding_pass None ++ [run_sip true None])
                   s_link_up) in
   halted s = false /\ sip_pc s = Some L_wait /\ link_ready s = true
   /\ is_initialized (client s) = true)
  /\ (let s := fst (run cfg_one_key (succeeding_pass None ++ [run_sip true None])
                      s_link_up) in
      count is_delay
        (snd (run cfg_one_key (List.concat (repeat (ready_pass true) 3)) s))
      = 0%nat).
Proof.
  split; [repeat split; reflexivity |].
  pose proof (X13_ready_passes_spin cfg_one_key
                (fst (run cfg_one_key (succeeding_pass None ++ [run_sip true None])
                        s_link_up))
                true 3 eq_refl eq_refl eq_refl eq_refl) as H.
  cbv zeta in *. destruct H as (_ & H & _). exact H.
Defined.

(* ===================================================================== *)
(** ** One installation for each successful init *)
(* ===================================================================== *)

Lemma phase_step_from_broken (ticks : Z) (e : effect) :
  phase_step ticks ph_broken e = ph_broken.
Proof. destruct e; reflexivity. Qed.

Lemma phase_counts (ticks : Z) (tr : list effect) :
  phase ticks tr <> ph_broken ->
  count is_successful_init tr
  = (count is_set_event_handler tr
     + match phase ticks tr with ph_install_due => 1 | _ => 0 end)%nat.
Proof.
  induction tr as [|e tr IH] using rev_ind; [reflexivity |].
  rewrite phase_app, !count_app. cbn [fold_left]. intros H.
  assert (Hprev : phase ticks tr <> ph_broken).
  { intros Eb. rewrite Eb, phase_step_from_broken in H. congruence. }
  specialize (IH Hprev). rewrite IH.
  destruct (phase ticks tr), e; cbn in *; try congruence; try lia;
    try (destruct result; cbn; lia);
    try (destruct (_ =? _); cbn in *; try congruence; lia).
Qed.

Lemma install_due_then_init (ticks : Z) (mid post : list effect) (r : bool) :
  fold_left (phase_step ticks) (mid ++ client_init r :: post) ph_install_due
  <> ph_broken ->
  In client_set_event_handler mid.
Proof.
  induction mid as [|e mid IH]; simpl; intros H.
  - rewrite phase_broken_absorbs in H. congruence.
  - destruct e; simpl in H; try (right; apply IH; exact H).
    + rewrite phase_broken_absorbs in H. congruence.
    + left; reflexivity.
Qed.

(** X14. In every run from start-up the callback is installed once for
    each successful [init()]: between a successful [init()] and the next
    [init()] there is an installation, and at any moment the successful
    [init()] calls are as many as the installations, or one more. *)
Theorem X14_one_installation_per_successful_init :
  forall (cfg : sdkconfig) (sched : list choice),
    let tr := snd (run cfg sched (boot cfg)) in
    (forall p1 mid r post,
        tr = p1 ++ client_init true :: mid ++ client_init r :: post ->
        In client_set_event_handler mid)
    /\ (count is_set_event_handler tr <= count is_successful_init tr
        <= count is_set_event_handler tr + 1)%nat.
Proof.
  intros cfg sched tr.
  assert (Hph : phase (retry_ticks cfg) tr <> ph_broken).
  { pose proof (inv_phase _ _ _ (inv_run cfg sched)) as Hp. fold tr in Hp.
    destruct (phase (retry_ticks cfg) tr); simpl in Hp;
      try discriminate; contradiction. }
  split.
  - intros p1 mid r post E. rewrite E, phase_app in Hph. simpl in Hph.
    destruct (phase (retry_ticks cfg) p1); simpl in Hph;
      try (rewrite phase_broken_absorbs in Hph; congruence).
    exact (install_due_then_init _ _ _ _ Hph).
  - rewrite (phase_counts _ _ Hph).
    destruct (phase (retry_ticks cfg) tr); lia.
Qed.

(* ===================================================================== *)
(** ** The readiness bit and the notifications *)
(* ===================================================================== *)

Lemma apply_effect_group (cfg : sdkconfig) (e : effect) (s : system) :
  wifi_event_group (apply_effect cfg e s) = bits_step (wifi_event_group s) e.
Proof. destruct e; reflexivity. Qed.

Lemma apply_effects_group (cfg : sdkconfig) (es : list effect) (s : system) :
  wifi_event_group (apply_effects cfg es s)
  = fold_left bits_step es (wifi_event_group s).
Proof.
  unfold apply_effects. revert s.
  induction es as [|e es IH]; intros s; simpl; [reflexivity |].
  rewrite IH, apply_effect_group. reflexivity.
Qed.

Lemma step_group (cfg : sdkconfig) (c : choice) (s : system) :
  wifi_event_group (fst (step cfg c s))
  = fold_left bits_step (snd (step cfg c s)) (wifi_event_group s).
Proof.
  unfold step. destruct (halted s); [reflexivity |].
  destruct c as [|b id data| |r io].
  - destruct (main_pending s) as [|e rest]; [reflexivity |].
    exact (apply_effect_group cfg e (with_main_pending rest s)).
  - destruct (evt_pending s); [destruct (wifi_started s) |]; reflexivity.
  - destruct (evt_pending s) as [|e rest]; [reflexivity |].
    exact (apply_effect_group cfg e (with_evt_pending rest s)).
  - destruct (sip_pc s) as [pc|]; [| reflexivity].
    destruct (sip_task cfg pc s r io) as [es pc'].
    exact (apply_effects_group cfg es (with_sip_pc (Some pc') s)).
Qed.

Lemma run_group (cfg : sdkconfig) (sched : list choice) (s : system) :
  wifi_event_group (fst (run cfg sched s))
  = fold_left bits_step (snd (run cfg sched s)) (wifi_event_group s).
Proof.
  induction sched as [|c sched IH] using rev_ind; [reflexivity |].
  rewrite run_snoc. cbn [fst snd]. rewrite fold_left_app, <- IH.
  apply step_group.
Qed.

Lemma ready_of_allowed_writes (cfg : sdkconfig) (tr : list effect)
    (n : option (esp_event_base_t * Z)) (g : Z) :
  checked (allowed cfg) note_step n tr = true ->
  Z.testbit (fold_left bits_step tr g) 0 = fold_left ready_step tr (Z.testbit g 0).
Proof.
  revert n g. induction tr as [|e tr IH]; intros n g H; [reflexivity |].
  cbn [checked] in H. apply andb_true_iff in H as [Ha H].
  cbn [fold_left]. rewrite (IH _ _ H). f_equal.
  destruct e; try reflexivity; cbn [bits_step ready_step];
    simpl in Ha; apply andb_true_iff in Ha as [_ Hb];
    apply Z.eqb_eq in Hb; subst bits.
  - rewrite Z.ldiff_spec. change (Z.testbit CONNECTED_BIT 0) with true.
    apply andb_false_r.
  - rewrite Z.lor_spec. change (Z.testbit CONNECTED_BIT 0) with true.
    apply orb_true_r.
Qed.

(** X15. In every run from start-up the readiness signal is what the last
    handled notification of the two kinds left: it is set exactly when the
    last write to the event group was the setting by the address-acquired
    branch; and the event group never holds anything but CONNECTED_BIT. *)
Theorem X15_readiness_is_the_last_write :
  forall (cfg : sdkconfig) (sched : list choice),
    let s := fst (run cfg sched (boot cfg)) in
    let tr := snd (run cfg sched (boot cfg)) in
    link_ready s = ready_after tr
    /\ (wifi_event_group s = 0 \/ wifi_event_group s = CONNECTED_BIT).
Proof.
  intros cfg sched s tr. pose proof (inv2_run cfg sched) as HI. fold s tr in HI.
  split; [| exact (inv2_bits _ _ _ HI)].
  rewrite link_ready_bit0. unfold s. rewrite run_group. fold tr.
  exact (ready_of_allowed_writes cfg tr None _ (inv2_origin _ _ _ HI)).
Qed.

(* ===================================================================== *)
(** ** Link loss and reconnection *)
(* ===================================================================== *)

Lemma reconnect_run (cfg : sdkconfig) (data : pointer) (ev : ip_event_got_ip_t)
    (cl : SipClient) (g : Z) (mp : list effect) :
  CONFIG_SIP_SERVER_IS_DHCP_SERVER cfg = false ->
  run cfg (reconnect data ev)
    {| client := cl; wifi_event_group := g; registry := client_registry;
       wifi_started := true; main_pending := mp; evt_pending := [];
       sip_pc := Some L_run; halted := false |}
  = ({| client := {| session := READY; server_ip := server_ip cl;
                     my_ip := ip_to_string (ip (ip_info ev));
                     has_event_handler := true |};
        wifi_event_group := Z.lor (Z.ldiff g CONNECTED_BIT) CONNECTED_BIT;
        registry := client_registry; wifi_started := true;
        main_pending := mp; evt_pending := [];
        sip_pc := Some L_run; halted := false |},
     reconnect_calls ev).
Proof.
  intros Hd.
  assert (Hdown : forall c r w m e p h,
             link_ready {| client := c; wifi_event_group := Z.ldiff g CONNECTED_BIT;
                           registry := r; wifi_started := w; main_pending := m;
                           evt_pending := e; sip_pc := p; halted := h |} = false).
  { intros. rewrite link_ready_bit0. cbn [wifi_event_group].
    rewrite Z.ldiff_spec. change (Z.testbit CONNECTED_BIT 0) with true.
    apply andb_false_r. }
  assert (Hup : forall c r w m e p h,
             link_ready {| client := c;
                           wifi_event_group :=
                             Z.lor (Z.ldiff g CONNECTED_BIT) CONNECTED_BIT;
                           registry := r; wifi_started := w; main_pending := m;
                           evt_pending := e; sip_pc := p; halted := h |} = true).
  { intros. rewrite link_ready_bit0. cbn [wifi_event_group].
    rewrite Z.lor_spec. change (Z.testbit CONNECTED_BIT 0) with true.
    apply orb_true_r. }
  set (s0 := {| client := cl; wifi_event_group := g; registry := client_registry;
                wifi_started := true; main_pending := mp; evt_pending := [];
                sip_pc := Some L_run; halted := false |}).
  set (s2 := {| client := deinit cl; wifi_event_group := Z.ldiff g CONNECTED_BIT;
                registry := client_registry; wifi_started := true;
                main_pending := mp; evt_pending := [];
                sip_pc := Some L_wait; halted := false |}).
  set (s3 := {| client := set_my_ip (ip_to_string (ip (ip_info ev))) (deinit cl);
                wifi_event_group := Z.lor (Z.ldiff g CONNECTED_BIT) CONNECTED_BIT;
                registry := client_registry; wifi_started := true;
                main_pending := mp; evt_pending := [];
                sip_pc := Some L_wait; halted := false |}).
  assert (E1 : run cfg (disconnect_handled data) s0
               = (with_sip_pc (Some L_run) s2,
                  [notified WIFI_EVENT WIFI_EVENT_STA_DISCONNECTED; client_deinit;
                   esp_wifi_connect; xEventGroupClearBits CONNECTED_BIT]))
    by reflexivity.
  assert (E2a : step cfg (run_sip true None) (with_sip_pc (Some L_run) s2)
                = (s2, [io_context_run])) by reflexivity.
  assert (E2b : step cfg (run_sip true None) s2 = (s2, [])).
  { unfold step. cbn -[link_ready]. unfold s2. rewrite Hdown. reflexivity. }
  assert (E3a : step cfg (deliver IP_EVENT IP_EVENT_STA_GOT_IP (ptr_got_ip ev)) s2
                = (with_evt_pending
                     (calls (event_handler cfg ptr_client IP_EVENT
                               IP_EVENT_STA_GOT_IP (ptr_got_ip ev)) ++ []) s2,
                   [notified IP_EVENT IP_EVENT_STA_GOT_IP])) by reflexivity.
  rewrite (got_ip_without_gateway_option cfg ev Hd) in E3a.
  assert (E3 : run cfg (got_ip_handled ev) s2
               = (s3, [notified IP_EVENT IP_EVENT_STA_GOT_IP;
                       ESP_LOGI ("got ip:" ++ IPSTR_IP2STR (ip (ip_info ev)))%string;
                       client_set_my_ip (ip_to_string (ip (ip_info ev)));
                       xEventGroupSetBits CONNECTED_BIT])).
  { change (got_ip_handled ev)
      with ([deliver IP_EVENT IP_EVENT_STA_GOT_IP (ptr_got_ip ev)]
            ++ [run_event_loop; run_event_loop; run_event_loop]).
    rewrite run_app, run_one, E3a. reflexivity. }
  assert (E4 : run cfg (succeeding_pass None) s3
               = (after_successful_pass s3, successful_attempt)).
  { apply one_successful_pass; try reflexivity. unfold s3. apply Hup. }
  unfold reconnect.
  rewrite run_app, E1. cbn [fst snd].
  change [run_sip true None; run_sip true None]
    with ([run_sip true None] ++ [run_sip true None]).
  rewrite run_app, (run_app cfg [run_sip true None] [run_sip true None]),
    !run_one, E2a. cbn [fst snd]. rewrite E2b. cbn [fst snd].
  rewrite run_app, E3. cbn [fst snd]. rewrite E4. reflexivity.
Qed.

(** X16. Take any reachable state in which the loop stands in
    [io_context.run()] and the event loop is idle, in a build without the
    gateway option.  Link loss, the return of the run, a new address and a
    successful [init()] make, in this order: teardown, reassociation, the
    clearing of the bit, the return of the run (after which the loop does
    nothing while the bit is clear), the recording of the new local address,
    the setting of the bit, and one new [init()] followed by the
    installation of the callback.  The handle is then READY with the new
    local address and the configured server address. *)
Theorem X16_reconnect_cycle :
  forall (cfg : sdkconfig) (sched0 : list choice) (data : pointer)
         (ev : ip_event_got_ip_t),
    let s := fst (run cfg sched0 (boot cfg)) in
    CONFIG_SIP_SERVER_IS_DHCP_SERVER cfg = false ->
    halted s = false -> sip_pc s = Some L_run -> evt_pending s = [] ->
    let s' := fst (run cfg (reconnect data ev) s) in
    snd (run cfg (reconnect data ev) s) = reconnect_calls ev
    /\ is_initialized (client s') = true
    /\ has_event_handler (client s') = true
    /\ my_ip (client s') = IPSTR_IP2STR (ip (ip_info ev))
    /\ server_ip (client s') = CONFIG_SIP_SERVER_IP cfg
    /\ link_ready s' = true
    /\ sip_pc s' = Some L_run.
Proof.
  intros cfg sched0 data ev s Hd Hh Hpc Hev s'.
  pose proof (inv2_run cfg sched0) as HI. fold s in HI.
  assert (Hc : created s = true) by (unfold created; rewrite Hpc; reflexivity).
  destruct (registered_once_created cfg s _ (inv2_base _ _ _ HI) Hc) as [Hreg Hws].
  pose proof (inv2_server _ _ _ HI Hd) as Hsrv.
  unfold s'. clear s'. revert Hh Hpc Hev Hreg Hws Hsrv. clear HI Hc.
  generalize s. clear s. intros [cl g reg ws mp ep pc h].
  cbn [halted sip_pc evt_pending registry wifi_started client].
  intros -> -> -> -> -> Hsrv.
  rewrite (reconnect_run cfg data ev cl g mp Hd). cbn [fst snd client].
  split; [reflexivity |]. split; [reflexivity |]. split; [reflexivity |].
  split; [cbn; apply ip_to_string_not_cut |].
  split; [exact Hsrv |].
  split; [| reflexivity].
  rewrite link_ready_bit0. cbn [wifi_event_group].
  rewrite Z.lor_spec. change (Z.testbit CONNECTED_BIT 0) with true.
  apply orb_true_r.
Qed.

(** The loop in [io_context.run()] after the link came up and [init()]
    succeeded. *)
Lemma X16_reconnect_witness :
  (let s := fst (run cfg_one_key (link_up ++ succeeding_pass None)
                   (boot cfg_one_key)) in
   CONFIG_SIP_SERVER_IS_DHCP_SERVER cfg_one_key = false
   /\ halted s = false /\ sip_pc s = Some L_run /\ evt_pending s = [])
  /\ (let s := fst (run cfg_one_key (link_up ++ succeeding_pass None)
                      (boot cfg_one_key)) in
      count is_client_init
        (snd (run cfg_one_key (reconnect NULL got_ip_example) s)) = 1%nat).
Proof.
  split; [repeat split; reflexivity |].
  pose proof (X16_reconnect_cycle cfg_one_key (link_up ++ succeeding_pass None)
                NULL got_ip_example eq_refl eq_refl eq_refl eq_refl) as H.
  cbv zeta in *. destruct H as (H & _). rewrite H. reflexivity.
Defined.
